(** * A student-guidance chatbot: accounts, sessions, the auth gate and the
      keyword responder of [app.py]

    The Flask application is embedded shallowly.  The [users] table is a list
    of rows in rowid order, the Flask session is a record of the three keys
    the application stores, each present or absent, the global
    [consecutive_errors] is threaded through [chat], and every handler
    returns its response together with the state it leaves.

    Text.  A Python [str] is taken as the bytes of its UTF-8 encoding, so the
    reply literals are the very bytes of the source.  [lower] and [strip] are
    the ASCII fragment of [str.lower] and [str.strip]: they agree with Python
    on ASCII text and leave other bytes alone.  All keywords are ASCII.

    Requests.  The views take the JSON body as a finite map from keys to
    strings; a missing key is an absent entry ([data.get] gives [None]).
    [chat_view] takes any JSON value and raises where the view raises.

    Storage.  The views are modelled on a store that does not fail, with the
    constraint checks of the schema (UNIQUE on [username] and [email]) kept;
    [register_user_with] and [login_user_with] add the errors SQLite may
    raise, and with them the [except sqlite3.Error] branches. *)

From Stdlib Require Import ZArith Lia Ascii String.
From stdpp Require Import base option list gmap strings.

Local Open Scope Z_scope.
Local Open Scope string_scope.

(** ** Python string primitives *)

Module Py.

(** [c.lower()] on one ASCII character: 'A'..'Z' move to 'a'..'z'. *)
Definition lower_char (c : ascii) : ascii :=
  let n := N_of_ascii c in
  if ((65 <=? n) && (n <=? 90))%N then ascii_of_N (n + 32) else c.

(** [s.lower()] *)
Fixpoint lower (s : string) : string :=
  match s with
  | EmptyString => EmptyString
  | String c s' => String (lower_char c) (lower s')
  end.

(** [c.isspace()] on the ASCII range: TAB, LF, VT, FF, CR, the four
    separators 0x1c..0x1f, and the blank. *)
Definition isspace (c : ascii) : bool :=
  let n := N_of_ascii c in
  (((9 <=? n) && (n <=? 13)) || ((28 <=? n) && (n <=? 32)))%N.

(** [s.lstrip()] *)
Fixpoint lstrip (s : string) : string :=
  match s with
  | EmptyString => EmptyString
  | String c s' => if isspace c then lstrip s' else s
  end.

(** [s.rstrip()]: a character is dropped when it is white and everything
    after it has been dropped. *)
Fixpoint rstrip (s : string) : string :=
  match s with
  | EmptyString => EmptyString
  | String c s' =>
      match rstrip s' with
      | EmptyString => if isspace c then EmptyString else String c EmptyString
      | r => String c r
      end
  end.

(** [s.strip()] *)
Definition strip (s : string) : string := rstrip (lstrip s).

(** [s.startswith(p)] *)
Definition startswith (s p : string) : bool := String.prefix p s.

(** [sub in s] on strings: [sub] occurs at some position of [s]. *)
Fixpoint contains (sub s : string) : bool :=
  match s with
  | EmptyString => startswith s sub
  | String _ s' => startswith s sub || contains sub s'
  end.

(** [x in l] for a list of strings. *)
Definition elem (x : string) (l : list string) : bool :=
  existsb (String.eqb x) l.

(** [any(p(x) for x in l)] *)
Definition any {A} (p : A -> bool) (l : list A) : bool := existsb p l.

(** [not s] for a string: true on the empty string. *)
Definition is_empty (s : string) : bool :=
  match s with EmptyString => true | _ => false end.

(** [not v] for the result of [dict.get]: true on [None] and on [""]. *)
Definition falsy (v : option string) : bool :=
  match v with None => true | Some s => is_empty s end.

(** [len(s)]: the number of code points, that is, of bytes that are not
    UTF-8 continuation bytes (10xxxxxx). *)
Fixpoint len (s : string) : Z :=
  match s with
  | EmptyString => 0
  | String c s' =>
      let n := N_of_ascii c in
      (if ((128 <=? n) && (n <? 192))%N then 0 else 1) + len s'
  end.

End Py.

Notation "k 'isin' s" := (Py.contains k s) (at level 70, no associativity).

(** ** The canned replies, byte for byte *)

Definition reply_empty : string :=
  "Please tell me your career ambition or what you'd like to know! 🤔".

Definition reply_greeting : string :=
  "Hello there! 👋 I'm a student guidance chatbot. Are you looking for tech-based job opportunities or upskilling roadmaps? 🚀".

Definition reply_affirmation : string :=
  "Great! ✨ To help you better, what specific tech job or area are you interested in? For example, 'web developer', 'data scientist', 'cybersecurity', or 'software tester'? 💡".

Definition reply_negation : string :=
  "Okay, no problem! 😊 Is there anything else I can assist you with today, perhaps general information about IT fields or learning resources? 📚".

Definition reply_gratitude : string :=
  "You're welcome! 🙏 Is there anything else I can help you with regarding tech careers or learning paths? 🎓".

Definition reply_bca : string :=
  "After BCA, you have diverse job opportunities in IT! 🌟 Some common roles include:
        - Software Developer / Engineer 💻
        - Web Developer (Frontend, Backend, Full-Stack) 🌐
        - Data Analyst / Data Scientist 📊
        - Cybersecurity Analyst 🔒
        - Cloud Engineer / DevOps Engineer ☁️
        - Database Administrator / DBMS Engineer 🗄️
        - IT Support Specialist 🛠️
        - Systems Analyst 📈
        - App Developer (Android/iOS) 📱
        - Technical Content Writer ✍️
        - Software Tester / QA Engineer 🧪
        - Machine Learning Engineer / AI Engineer 🧠
        - IoT Developer 🔗
        - Android Developer 🤖
        - iOS Developer 🍎
        - Blockchain Developer ⛓️
        - Educator / Teacher 🧑‍🏫
        - Flutter Developer 🦋
        Would you like a roadmap for any of these, or more details on a specific role? 👇".

Definition reply_web_developer : string :=
  "A **Web Developer** builds and maintains websites. 🌐
        **Key Skills:** HTML, CSS, JavaScript (for frontend), Python/Node.js/PHP (for backend), database knowledge (SQL/NoSQL), frameworks (React, Angular, Vue, Django, Express), Git.
        **Typical Roadmap (Estimated Time):**
        1.  **Foundations:** HTML, CSS, JavaScript basics (2-4 months) 📚
        2.  **Frontend Deep Dive:** Choose a framework (React/Vue/Angular) (3-6 months) ✨
        3.  **Backend Basics:** Learn a language/framework (Node.js/Python Flask/Django) (3-5 months) ⚙️
        4.  **Databases:** SQL (e.g., PostgreSQL) and maybe NoSQL (e.g., MongoDB) (1-2 months) 🗄️
        5.  **Version Control:** Git & GitHub (2-4 weeks) 🌳
        6.  **Build Projects!** (Ongoing) 🚀".

Definition reply_data_scientist : string :=
  "A **Data Analyst/Scientist** extracts insights from data to aid decision-making. 📊
        **Key Skills:** Python (Pandas, NumPy, Matplotlib), R, SQL, Statistics, Data Visualization, Machine Learning fundamentals.
        **Typical Roadmap (Estimated Time):**
        1.  **Programming:** Python fundamentals with data libraries (2-4 months) 🐍
        2.  **Statistics & Math:** Probability, hypothesis testing (2-3 months) ➕
        3.  **Data Manipulation:** SQL and data cleaning techniques (1-2 months) 🧹
        4.  **Machine Learning:** Supervised/Unsupervised learning (3-6 months) 🤖
        5.  **Tools:** Jupyter Notebooks, scikit-learn (1 month) 🛠️
        6.  **Practice with Real Data!** (Ongoing) 📈".

Definition reply_cybersecurity : string :=
  "A **Cybersecurity Analyst** protects systems and networks from digital threats. 🔒
        **Key Skills:** Networking (TCP/IP, firewalls), Operating Systems (Linux, Windows security), Cryptography, Vulnerability Assessment, Incident Response.
        **Typical Roadmap (Estimated Time):**
        1.  **Networking & OS Basics:** Understand how computers and networks work (2-3 months) 🌐
        2.  **Security Fundamentals:** Learn about common threats, defense mechanisms (2-4 months) 🛡️
        3.  **Tools:** Get hands-on with security tools (e.g., Nmap, Wireshark) (1-2 months) 🕵️‍♀️
        4.  **Ethical Hacking:** Understand attacker mindsets (for defense) (2-3 months) 😈
        5.  **Certifications:** Consider CompTIA Security+, CEH (3-6 months, varies) 📜".

Definition reply_cloud_devops : string :=
  "A **Cloud Engineer / DevOps Engineer** focuses on building, deploying, and managing applications in cloud environments, and automating software delivery. ☁️
        **Key Skills:** Cloud Platforms (AWS, Azure, GCP), Linux, Scripting (Python/Bash), CI/CD tools (Jenkins, GitLab CI), Containerization (Docker), Orchestration (Kubernetes), Infrastructure as Code (Terraform).
        **Typical Roadmap (Estimated Time):**
        1.  **Linux & Networking:** Strong understanding of Linux command line and network basics (2-3 months) 🐧
        2.  **Cloud Fundamentals:** Learn one major cloud provider (AWS/Azure/GCP) (3-5 months) 🚀
        3.  **Scripting:** Python or Bash for automation (1-2 months) ✍️
        4.  **CI/CD:** Understand continuous integration/delivery pipelines (2-3 months) 🔄
        5.  **Containerization:** Docker basics (1 month) 🐳
        6.  **IaC:** Learn Terraform or CloudFormation (1-2 months) 🏗️".

Definition reply_software_developer : string :=
  "A **Software Developer/Engineer** designs, codes, tests, and maintains software applications. 💻
        **Key Skills:** Core programming language (Java, Python, C++), Data Structures & Algorithms, Object-Oriented Programming, Problem Solving, Debugging, Version Control (Git).
        **Typical Roadmap (Estimated Time):**
        1.  **Choose a Language:** Master one language (e.g., Python or Java) (2-4 months) 🧠
        2.  **DSA & OOP:** Solidify understanding of data structures, algorithms, and OOP (3-5 months) 🧩
        3.  **Development Tools:** Learn IDEs, debuggers, Git (1 month) 🛠️
        4.  **Build Small Projects:** Apply your knowledge (Ongoing) 🚀
        5.  **Testing:** Understand unit and integration testing (2-4 weeks) 🧪
        6.  **Specialization:** Decide on web, mobile, desktop, or other domains (Ongoing) ✨".

Definition reply_python_developer : string :=
  "A **Python Developer** specializes in building various applications, from web and data science to automation and backend systems, using the Python language. 🐍
        **Key Skills:** Python syntax, data structures, algorithms, object-oriented programming, relevant libraries (e.g., Flask/Django for web, Pandas/NumPy for data), database interaction, Git.
        **Typical Roadmap (Estimated Time):**
        1.  **Python Fundamentals:** Syntax, variables, loops, functions, basic data structures (1-2 months) 📚
        2.  **Intermediate Python:** OOP, error handling, modules, file I/O (1-2 months) 💡
        3.  **Choose a Specialization:**
            * **Web Development:** Flask/Django (2-4 months) 🌐
            * **Data Science:** Pandas, NumPy, Matplotlib, Scikit-learn (3-6 months) 📊
            * **Automation/Scripting:** OS module, regex, web scraping (1-2 months) 🤖
        4.  **Databases:** SQL with Python (e.g., SQLAlchemy/Psycopg2) (1 month) 🗄️
        5.  **Version Control:** Git & GitHub (2-4 weeks) 🌳
        6.  **Build Projects!** (Ongoing) 🚀".

Definition reply_language_developer : string :=
  "To provide a more tailored roadmap, **which specific programming language are you interested in (e.g., Java, C++, JavaScript, C#, Go, Ruby, Swift, Kotlin, etc.)?** 🤔

        Generally, becoming a **Language-Based Developer** involves mastering a specific programming language and its ecosystem. 💻
        **Key Skills:** Chosen language syntax, core libraries/APIs, data structures, algorithms, object-oriented/functional programming (as applicable), relevant frameworks, testing, Git.
        **Typical Roadmap (Estimated Time - varies by language and specialization):**
        1.  **Language Fundamentals:** Syntax, basic constructs, data types (1-3 months) 📚
        2.  **Core Concepts:** OOP/Functional paradigms, error handling, standard library usage (2-4 months) 💡
        3.  **Ecosystem & Frameworks:** Learn popular frameworks/libraries for web, mobile, desktop, or enterprise applications in that language (3-6 months) ✨
        4.  **Databases:** How to interact with databases from your chosen language (1-2 months) 🗄️
        5.  **Version Control:** Git & GitHub (2-4 weeks) 🌳
        6.  **Build Projects!** (Ongoing) 🚀".

Definition reply_software_tester : string :=
  "A **Software Tester / QA Engineer** ensures the quality of software by identifying bugs, defects, and ensuring it meets requirements. 🧪
        **Key Skills:** Software Testing Life Cycle (STLC), Test Case Design, Bug Reporting, Manual Testing, Automation Testing (Selenium, Playwright), SQL basics, understanding of SDLC.
        **Typical Roadmap (Estimated Time):**
        1.  **Testing Fundamentals:** SDLC, STLC, types of testing (manual, automation, performance, security) (1-2 months) 📚
        2.  **Test Case Design & Execution:** Writing effective test cases, bug tracking tools (Jira, Bugzilla) (1-2 months) 📝
        3.  **SQL Basics:** For database testing (2-4 weeks) 🗄️
        4.  **Automation Testing Intro:** Learn a tool/framework (e.g., Selenium with Python/Java) (3-5 months) 🤖
        5.  **API Testing:** Tools like Postman (1 month) 🔌
        6.  **Version Control:** Git basics (2-4 weeks) 🌳
        7.  **Practice with Projects!** (Ongoing) ✅".

Definition reply_ml_engineer : string :=
  "A **Machine Learning Engineer** designs, builds, and deploys AI/ML models into production systems. 🧠
        **Key Skills:** Python (NumPy, Pandas, Scikit-learn, TensorFlow/PyTorch), Linear Algebra, Calculus, Statistics, Machine Learning Algorithms, Deep Learning, MLOps, Cloud Platforms (AWS Sagemaker, Azure ML).
        **Typical Roadmap (Estimated Time):**
        1.  **Python & Data Science Basics:** Python fundamentals, Pandas, NumPy (2-3 months) 🐍
        2.  **Mathematics for ML:** Linear Algebra, Calculus, Statistics (2-4 months) ➕
        3.  **Core ML Algorithms:** Supervised, Unsupervised, Reinforcement Learning (3-6 months) 🤖
        4.  **Deep Learning:** Neural Networks, frameworks (TensorFlow/PyTorch) (3-6 months) 💡
        5.  **MLOps & Deployment:** Docker, Kubernetes, cloud ML services (2-4 months) ☁️
        6.  **Build End-to-End Projects!** (Ongoing) 🚀".

Definition reply_dbms : string :=
  "A **DBMS Engineer / Database Administrator (DBA) / Database Architect** designs, implements, maintains, and optimizes databases to ensure data integrity, security, and performance. 🗄️
        **Key Skills:** SQL (Advanced), Database Management Systems (MySQL, PostgreSQL, Oracle, SQL Server), NoSQL Databases (MongoDB, Cassandra), Database Design & Modeling, Performance Tuning, Backup & Recovery, Security.
        **Typical Roadmap (Estimated Time):**
        1.  **SQL Fundamentals:** Queries, DDL, DML (1-2 months) 📝
        2.  **Relational Database Concepts:** Normalization, ACID properties (1 month) 🧩
        3.  **Specific RDBMS:** In-depth knowledge of one (e.g., MySQL or PostgreSQL) (2-4 months) 📊
        4.  **Database Design & Modeling:** ER diagrams, schema design (1-2 months) 📐
        5.  **Performance Tuning & Optimization:** Indexing, query optimization (2-3 months) ⚡
        6.  **Backup, Recovery & Security:** Strategies and implementation (1-2 months) 🔒
        7.  **NoSQL Databases (Optional but Recommended):** Basics of MongoDB, Cassandra (1-2 months) 📂
        8.  **Practice with Real-World Scenarios!** (Ongoing) 🚀".

Definition reply_iot_developer : string :=
  "An **IoT Developer** specializes in building and deploying solutions for interconnected devices, focusing on hardware, software, and data communication. 🔗
        **Key Skills:** Embedded Systems (Arduino, Raspberry Pi), Programming (Python, C/C++), Networking Protocols (MQTT, HTTP), Cloud Platforms (AWS IoT, Azure IoT Hub), Data Processing, Security.
        **Typical Roadmap (Estimated Time):**
        1.  **Electronics & Microcontrollers:** Basics of circuits, Arduino/Raspberry Pi (2-3 months) 💡
        2.  **Embedded Programming:** C/C++ for microcontrollers, Python for higher-level logic (2-4 months) 💻
        3.  **Networking & Protocols:** TCP/IP, MQTT, HTTP, CoAP (1-2 months) 📡
        4.  **IoT Platforms:** Learn one cloud IoT platform (e.g., AWS IoT Core, Azure IoT Hub) (2-4 months) ☁️
        5.  **Data Handling:** Sensor data acquisition, basic data processing (1-2 months) 📊
        6.  **Security in IoT:** Understanding vulnerabilities and best practices (1 month) 🔒
        7.  **Build End-to-End IoT Projects!** (Ongoing) 🏠".

Definition reply_android_developer : string :=
  "An **Android Developer** builds applications for the Android operating system. 🤖
        **Key Skills:** Java or Kotlin, Android SDK, Android Studio, XML for UI layouts, Material Design, API integration, databases (SQLite/Room), Git.
        **Typical Roadmap (Estimated Time):**
        1.  **Java or Kotlin Fundamentals:** Master one language (2-4 months) 📚
        2.  **Android Basics:** Android SDK, Android Studio IDE, basic UI components (3-5 months) 📱
        3.  **Advanced UI/UX:** Material Design, custom views (1-2 months) ✨
        4.  **Data Storage:** SQLite, Room Persistence Library (1-2 months) 🗄️
        5.  **API Integration:** Working with REST APIs (1-2 months) 🔌
        6.  **Version Control:** Git & GitHub (2-4 weeks) 🌳
        7.  **Build and Publish Apps!** (Ongoing) 🚀".

Definition reply_ios_developer : string :=
  "An **iOS Developer** builds applications for Apple's iOS ecosystem (iPhone, iPad). 🍎
        **Key Skills:** Swift or Objective-C, Xcode IDE, iOS SDK, SwiftUI/UIKit for UI, API integration, Core Data/Realm, Git.
        **Typical Roadmap (Estimated Time):**
        1.  **Swift Fundamentals:** Master the Swift programming language (2-4 months) 📚
        2.  **iOS Basics:** Xcode IDE, iOS SDK, basic UI (UIKit/SwiftUI) (3-5 months) 📱
        3.  **Advanced UI/UX:** Complex layouts, animations (1-2 months) ✨
        4.  **Data Persistence:** Core Data, Realm, User Defaults (1-2 months) 🗄️
        5.  **API Integration:** Working with REST APIs (1-2 months) 🔌
        6.  **Version Control:** Git & GitHub (2-4 weeks) 🌳
        7.  **Build and Publish Apps!** (Ongoing) 🚀".

Definition reply_flutter_developer : string :=
  "A **Flutter Developer** builds natively compiled applications for mobile, web, and desktop from a single codebase using Google's Flutter UI toolkit. 🦋
        **Key Skills:** Dart programming language, Flutter SDK, Widget-based UI, State Management (Provider, BLoC, Riverpod), API integration, Firebase/local storage, Git.
        **Typical Roadmap (Estimated Time):**
        1.  **Dart Fundamentals:** Master the Dart programming language (1-2 months) 📚
        2.  **Flutter Basics:** Widgets, layout, navigation, Flutter SDK (2-4 months) 📱
        3.  **State Management:** Learn a popular solution (Provider, BLoC, Riverpod) (1-2 months) 🧩
        4.  **API Integration:** Fetching data from web services (1-2 months) 🔌
        5.  **Local Data Persistence:** Shared Preferences, SQLite (1 month) 🗄️
        6.  **Firebase/Backend Integration:** Cloud Firestore, Authentication (1-2 months) ☁️
        7.  **Version Control:** Git & GitHub (2-4 weeks) 🌳
        8.  **Build and Deploy Cross-Platform Apps!** (Ongoing) 🚀".

Definition reply_blockchain_developer : string :=
  "A **Blockchain Developer** designs and implements decentralized applications (DApps) and smart contracts on blockchain platforms. ⛓️
        **Key Skills:** Cryptography basics, Distributed Ledger Technology (DLT), Smart Contract Languages (e.g., Solidity for Ethereum), Blockchain Platforms (Ethereum, Hyperledger, Corda), Web3.js/Ethers.js, Token Standards (ERC-20, ERC-721), Git.
        **Typical Roadmap (Estimated Time):**
        1.  **Fundamentals:** Cryptography, Distributed Systems, Networking basics (2-3 months) 📚
        2.  **Blockchain Concepts:** Consensus mechanisms, immutability, decentralization (1-2 months) 💡
        3.  **Smart Contracts:** Learn Solidity (for Ethereum) or equivalent for other platforms (3-5 months) 📝
        4.  **Blockchain Platforms:** Dive deep into Ethereum, or explore Hyperledger, Polkadot, etc. (2-4 months) 🌐
        5.  **Web3 Development:** Interacting with blockchains from frontend apps (Web3.js/Ethers.js) (1-2 months) 🔌
        6.  **Security in Blockchain:** Common vulnerabilities, best practices (1 month) 🔒
        7.  **Build DApps and Projects!** (Ongoing) 🚀".

Definition reply_educator : string :=
  "An **Educator / Teacher** in the computer science or IT field shares knowledge and guides students in academic or vocational settings. 🧑‍🏫
        **Key Skills:** Strong subject matter expertise (Computer Science, programming, IT concepts), excellent communication, presentation skills, patience, curriculum development, classroom management (if applicable).
        **Typical Roadmap (Estimated Time):**
        1.  **Strong BCA Foundation:** Master core computer science concepts (Ongoing throughout BCA) 🎓
        2.  **Further Education:** MCA, M.Sc. in CS/IT, or B.Ed. (for school-level teaching) (2-3 years) 📚
        3.  **Communication & Presentation Skills:** Practice explaining complex topics clearly (Ongoing) 🗣️
        4.  **Pedagogy Basics:** Understand teaching methodologies (can be self-taught or through B.Ed.) (1-3 months) 💡
        5.  **Practical Experience:** Internships, tutoring, teaching assistant roles (Ongoing) 🤝
        6.  **Specialization:** Focus on specific subjects you want to teach (e.g., Python, Web Dev, Data Science) (Ongoing) ✨".

Definition reply_capabilities : string :=
  "I'm sorry, I can only provide guidance for specific tech career paths like Web Developer, Data Scientist, Cybersecurity, Cloud/DevOps, Software Developer, Python Developer, Software Tester, Machine Learning Engineer, Database roles, IoT Developer, Android Developer, iOS Developer, Blockchain Developer, Educator, or Flutter Developer. You might find more general help by trying a broader AI like Google Gemini: [https://gemini.google.com/](https://gemini.google.com/) 🤖".

Definition reply_rephrase : string :=
  "Sorry, I couldn't understand your request. Can you please ask again, perhaps by mentioning a specific tech career or skill? 🤔".

(** ** Responses *)

(** What a view (or the auth gate) returns.  [jsonify body status] is a JSON
    object with string fields; [redirect] is Flask's 302; [render_template]
    is a 200 page; [send_static] is a file of the static folder; [abort] is
    an HTTP error raised by routing. *)
Inductive response :=
| jsonify (body : list (string * string)) (status : Z)
| redirect (location : string)
| render_template (name : string)
| send_static (name : string)
| abort (status : Z).

Definition status_code (r : response) : Z :=
  match r with
  | jsonify _ s => s
  | redirect _ => 302
  | render_template _ => 200
  | send_static _ => 200
  | abort s => s
  end.

(** ** The chatbot *)

(** The conditions of the if/elif cascade of [chat], in source order; each
    takes the normalised message. *)
Module Rule.

Definition empty (user_message : string) : bool :=
  Py.is_empty user_message.

Definition greeting (user_message : string) : bool :=
  Py.any (fun greeting_word => greeting_word isin user_message)
    ["hello"; "hi"; "hey"; "good morning"; "good afternoon"; "good evening";
     "good night"; "how are you"; "what's up"; "greetings"].

Definition affirmation (user_message : string) : bool :=
  Py.elem user_message ["yes"; "yeah"; "yep"; "yup"; "sure"; "definitely"].

Definition negation (user_message : string) : bool :=
  Py.elem user_message ["no"; "nope"; "not really"; "nah"].

Definition gratitude (user_message : string) : bool :=
  ("thanks" isin user_message) || ("thank you" isin user_message)
  || ("ty" isin user_message).

Definition bca (user_message : string) : bool :=
  ("job opportunities after bca" isin user_message)
  || ("jobs after bca" isin user_message)
  || ("career after bca" isin user_message).

Definition web_developer (user_message : string) : bool :=
  ("web developer" isin user_message) || ("web dev" isin user_message)
  || ("frontend" isin user_message) || ("backend" isin user_message).

Definition data_scientist (user_message : string) : bool :=
  ("data scientist" isin user_message) || ("data analyst" isin user_message)
  || ("data science" isin user_message).

Definition cybersecurity (user_message : string) : bool :=
  ("cybersecurity" isin user_message) || ("cyber security" isin user_message)
  || ("security analyst" isin user_message).

Definition cloud_devops (user_message : string) : bool :=
  ("cloud engineer" isin user_message) || ("devops" isin user_message)
  || ("devops engineer" isin user_message)
  || ("cloud computing" isin user_message).

Definition software_developer (user_message : string) : bool :=
  ("software developer" isin user_message)
  || ("software engineer" isin user_message)
  || ("programmer" isin user_message).

Definition python_developer (user_message : string) : bool :=
  ("python developer" isin user_message)
  || ("python programming" isin user_message).

Definition language_developer (user_message : string) : bool :=
  ("java developer" isin user_message) || ("java programming" isin user_message)
  || ("c++ developer" isin user_message) || ("c++ programming" isin user_message)
  || ("javascript developer" isin user_message)
  || ("javascript programming" isin user_message)
  || ("language based developer" isin user_message).

Definition software_tester (user_message : string) : bool :=
  ("software tester" isin user_message) || ("qa engineer" isin user_message)
  || ("quality assurance" isin user_message)
  || ("software testing" isin user_message).

Definition ml_engineer (user_message : string) : bool :=
  ("machine learning engineer" isin user_message)
  || ("ml engineer" isin user_message) || ("ai engineer" isin user_message)
  || ("artificial intelligence engineer" isin user_message).

Definition dbms (user_message : string) : bool :=
  ("dbms" isin user_message) || ("database architect" isin user_message)
  || ("database engineer" isin user_message)
  || ("database administrator" isin user_message).

Definition iot_developer (user_message : string) : bool :=
  ("iot developer" isin user_message)
  || ("internet of things developer" isin user_message).

Definition android_developer (user_message : string) : bool :=
  ("android developer" isin user_message) || ("android app" isin user_message)
  || ("mobile developer android" isin user_message).

Definition ios_developer (user_message : string) : bool :=
  ("ios developer" isin user_message) || ("ios app" isin user_message)
  || ("mobile developer ios" isin user_message).

Definition flutter_developer (user_message : string) : bool :=
  ("flutter developer" isin user_message)
  || ("flutter programming" isin user_message)
  || ("flutter app" isin user_message)
  || ("cross-platform mobile developer" isin user_message).

Definition blockchain_developer (user_message : string) : bool :=
  ("blockchain developer" isin user_message)
  || ("blockchain programming" isin user_message)
  || ("crypto developer" isin user_message).

Definition educator (user_message : string) : bool :=
  ("educator" isin user_message) || ("teacher" isin user_message)
  || ("professor" isin user_message) || ("lecturer" isin user_message)
  || ("computer instructor" isin user_message).

End Rule.

(** [request.json.get("message", "").lower().strip()] *)
Definition normalise (data : gmap string string) : string :=
  Py.strip (Py.lower (default "" (data !! "message"))).

(** The unmatched turn at the end of [chat]: bump the global, escalate on the
    second strike and start over, else nudge. *)
Definition unmatched_turn (consecutive_errors : Z) : string * Z :=
  let consecutive_errors := consecutive_errors + 1 in
  if (2 <=? consecutive_errors)%Z
  then (reply_capabilities, 0)
  else (reply_rephrase, consecutive_errors).

(** The cascade of [chat] on the normalised message.  Every branch assigns
    the global and returns; the pair is the reply and the value of
    [consecutive_errors] on return. *)
Definition chat_body (user_message : string) (consecutive_errors : Z)
  : string * Z :=
  if Rule.empty user_message then (reply_empty, 0)
  else if Rule.greeting user_message then (reply_greeting, 0)
  else if Rule.affirmation user_message then (reply_affirmation, 0)
  else if Rule.negation user_message then (reply_negation, 0)
  else if Rule.gratitude user_message then (reply_gratitude, 0)
  else if Rule.bca user_message then (reply_bca, 0)
  else if Rule.web_developer user_message then (reply_web_developer, 0)
  else if Rule.data_scientist user_message then (reply_data_scientist, 0)
  else if Rule.cybersecurity user_message then (reply_cybersecurity, 0)
  else if Rule.cloud_devops user_message then (reply_cloud_devops, 0)
  else if Rule.software_developer user_message
  then (reply_software_developer, 0)
  else if Rule.python_developer user_message then (reply_python_developer, 0)
  else if Rule.language_developer user_message
  then (reply_language_developer, 0)
  else if Rule.software_tester user_message then (reply_software_tester, 0)
  else if Rule.ml_engineer user_message then (reply_ml_engineer, 0)
  else if Rule.dbms user_message then (reply_dbms, 0)
  else if Rule.iot_developer user_message then (reply_iot_developer, 0)
  else if Rule.android_developer user_message
  then (reply_android_developer, 0)
  else if Rule.ios_developer user_message then (reply_ios_developer, 0)
  else if Rule.flutter_developer user_message
  then (reply_flutter_developer, 0)
  else if Rule.blockchain_developer user_message
  then (reply_blockchain_developer, 0)
  else if Rule.educator user_message then (reply_educator, 0)
  else unmatched_turn consecutive_errors.

(** [POST /chat]: the view.  [data] is [request.json]; the second component
    is the global [consecutive_errors] after the call. *)
Definition chat (data : gmap string string) (consecutive_errors : Z)
  : response * Z :=
  let user_message := normalise data in
  let '(reply, consecutive_errors) :=
    chat_body user_message consecutive_errors in
  (jsonify [("reply", reply)] 200, consecutive_errors).

(** No condition of the cascade holds: the call reaches the code after the
    last [elif]. *)
Definition unmatched (user_message : string) : bool :=
  negb (Rule.empty user_message || Rule.greeting user_message
        || Rule.affirmation user_message || Rule.negation user_message
        || Rule.gratitude user_message || Rule.bca user_message
        || Rule.web_developer user_message || Rule.data_scientist user_message
        || Rule.cybersecurity user_message || Rule.cloud_devops user_message
        || Rule.software_developer user_message
        || Rule.python_developer user_message
        || Rule.language_developer user_message
        || Rule.software_tester user_message || Rule.ml_engineer user_message
        || Rule.dbms user_message || Rule.iot_developer user_message
        || Rule.android_developer user_message || Rule.ios_developer user_message
        || Rule.flutter_developer user_message
        || Rule.blockchain_developer user_message || Rule.educator user_message).

(** ** The account store: table [users] *)

Module Row.
Record user := mk {
  id : Z;
  username : string;
  email : string;
  password : string;
  member_since : string
}.
End Row.
Abbreviation user := Row.user.

(** The schema of [init_db]: [id] is the primary key, [username] and [email]
    are UNIQUE. *)
Definition schema_ok (users : list user) : Prop :=
  NoDup (map Row.id users) /\ NoDup (map Row.username users)
  /\ NoDup (map Row.email users).

(** [SELECT id FROM users WHERE email = ? OR username = ?], [fetchone()] *)
Definition select_by_email_or_username (users : list user)
    (email username : string) : option user :=
  find (fun r => String.eqb (Row.email r) email
                 || String.eqb (Row.username r) username) users.

(** [SELECT id, username, email, password FROM users WHERE email = ?] *)
Definition select_by_email (users : list user) (email : string)
  : option user :=
  find (fun r => String.eqb (Row.email r) email) users.

(** [SELECT username, email, member_since FROM users WHERE id = ?] *)
Definition select_by_id (users : list user) (user_id : Z) : option user :=
  find (fun r => Z.eqb (Row.id r) user_id) users.

(** AUTOINCREMENT: one more than the largest rowid; rows are never deleted. *)
Definition next_id (users : list user) : Z :=
  1 + fold_right Z.max 0 (map Row.id users).

(** [INSERT INTO users (username, email, password, member_since)].  The
    UNIQUE constraints are checked by the store: on a violation nothing is
    written and the name of the column is reported ([sqlite3.IntegrityError]). *)
Definition insert_user (users : list user)
    (username email password member_since : string)
  : string + list user :=
  if existsb (fun r => String.eqb (Row.username r) username) users
  then inl "UNIQUE constraint failed: users.username"
  else if existsb (fun r => String.eqb (Row.email r) email) users
  then inl "UNIQUE constraint failed: users.email"
  else inr (users ++ [Row.mk (next_id users) username email password
                        member_since])%list.

(** Rows with a given e-mail address. *)
Definition rows_with_email (users : list user) (email : string) : list user :=
  filter (fun r => Row.email r = email) users.

(** ** The Flask session *)

Module Session.
Record t := mk {
  user_id : option Z;
  user_email : option string;
  username : option string
}.
Definition empty : t := mk None None None.
End Session.
Abbreviation session := Session.t.

(** ['user_id' in session] *)
Definition logged_in (s : session) : bool :=
  match Session.user_id s with Some _ => true | None => false end.

(** ** Views *)

(** [url_for] on the two endpoints the application redirects to. *)
Definition url_for (endpoint : string) : string :=
  if String.eqb endpoint "login_page" then "/login"
  else if String.eqb endpoint "chat_app_page" then "/chat_app"
  else "/".

(** [check_auth], registered with [before_request]: [None] lets the request
    through to its view, [Some rv] answers it in the view's place. *)
Definition check_auth (path : string) (endpoint : option string)
    (s : session) : option response :=
  if Py.elem path ["/login"; "/register"; "/login_user"; "/register_user";
                   "/static/style.css"; "/static/script.js"]
  then None
  else if negb (logged_in s)
  then
    if negb (bool_decide (endpoint = Some "login_page"))
    then Some (redirect (url_for "login_page"))
    else None
  else None.

Definition home (s : session) : response :=
  if logged_in s then redirect (url_for "chat_app_page")
  else redirect (url_for "login_page").

Definition login_page (s : session) : response :=
  if logged_in s then redirect (url_for "chat_app_page")
  else render_template "login.html".

Definition register_page (s : session) : response :=
  if logged_in s then redirect (url_for "chat_app_page")
  else render_template "register.html".

Definition profile_page : response := render_template "profile.html".

Definition chat_app_page : response := render_template "chat_app.html".

(** [POST /register_user].  [now] is [datetime.now().strftime('%B %Y')]. *)
Definition register_user (data : gmap string string) (now : string)
    (users : list user) : response * list user :=
  let email := data !! "email" in
  let password := data !! "password" in
  let username := data !! "username" in
  if Py.falsy email || Py.falsy password || Py.falsy username
  then (jsonify [("message", "Email, password, and username are required.")]
          400, users)
  else
    let email := default "" email in
    let password := default "" password in
    let username := default "" username in
    if (Py.len password <? 6)%Z
    then (jsonify [("message", "Password must be at least 6 characters long.")]
            400, users)
    else
      match select_by_email_or_username users email username with
      | Some existing_user =>
          (jsonify [("message", "Email or username already registered.")] 409,
           users)
      | None =>
          let member_since := now in
          match insert_user users username email password member_since with
          | inr users' =>
              (jsonify [("message", "Registration successful! Please log in.")]
                 201, users')
          | inl e =>
              (jsonify [("message", "Registration failed: " +:+ e)] 500,
               users)
          end
      end.

(** [POST /login_user] *)
Definition login_user (data : gmap string string) (users : list user)
    (s : session) : response * session :=
  let email := data !! "email" in
  let password := data !! "password" in
  if Py.falsy email || Py.falsy password
  then (jsonify [("message", "Email and password are required.")] 400, s)
  else
    let email := default "" email in
    let password := default "" password in
    match select_by_email users email with
    | Some user =>
        if String.eqb (Row.password user) password
        then (jsonify [("message", "Login successful!")] 200,
              Session.mk (Some (Row.id user)) (Some (Row.email user))
                (Some (Row.username user)))
        else (jsonify [("message", "Invalid email or password.")] 401, s)
    | None => (jsonify [("message", "Invalid email or password.")] 401, s)
    end.

(** [POST /logout_user]: the three keys are popped. *)
Definition logout_user (s : session) : response * session :=
  (jsonify [("message", "Logged out successfully.")] 200,
   Session.mk None None None).

(** [GET /get_user_profile] *)
Definition get_user_profile (users : list user) (s : session) : response :=
  match Session.user_id s with
  | None => jsonify [("message", "Not authenticated.")] 401
  | Some user_id =>
      match select_by_id users user_id with
      | Some profile_data =>
          jsonify [("username", Row.username profile_data);
                   ("email", Row.email profile_data);
                   ("member_since", Row.member_since profile_data);
                   ("account_type", "Standard User")] 200
      | None => jsonify [("message", "Profile data not found.")] 404
      end
  end.

(** ** Requests and dispatch *)

Record request := mk_request {
  method : string;
  path : string;
  json : gmap string string
}.

(** The state a request runs against: the table, the caller's session and
    the process-wide counter. *)
Record world := mk_world {
  users : list user;
  sess : session;
  consecutive_errors : Z
}.

(** The URL map built by the [@app.route] decorators: rule, method,
    endpoint. *)
Definition url_map : list (string * string * string) :=
  [("/", "GET", "home");
   ("/login", "GET", "login_page");
   ("/register", "GET", "register_page");
   ("/profile", "GET", "profile_page");
   ("/chat_app", "GET", "chat_app_page");
   ("/register_user", "POST", "register_user");
   ("/login_user", "POST", "login_user");
   ("/logout_user", "POST", "logout_user");
   ("/get_user_profile", "GET", "get_user_profile");
   ("/chat", "POST", "chat")].

(** URL matching: the endpoint of a rule whose path and method both match,
    else the routing error (405 when only the path matches, 404 otherwise).
    Flask's own rule for the static folder is the last resort.  The HEAD and
    OPTIONS methods Flask adds to every rule are left out. *)
Definition match_request (req : request) : Z + string :=
  match find (fun '(rule, m, _) => String.eqb rule (path req)
                                   && String.eqb m (method req)) url_map with
  | Some (_, _, endpoint) => inr endpoint
  | None =>
      if existsb (fun '(rule, _, _) => String.eqb rule (path req)) url_map
      then inl 405
      else if Py.startswith (path req) "/static/"
      then (if String.eqb (method req) "GET" then inr "static" else inl 405)
      else inl 404
  end.

(** [request.endpoint] *)
Definition endpoint (req : request) : option string :=
  match match_request req with inr e => Some e | inl _ => None end.

(** Calling the view of the matched endpoint. *)
Definition dispatch_request (req : request) (now : string) (w : world)
  : response * world :=
  match match_request req with
  | inl status => (abort status, w)
  | inr e =>
      if String.eqb e "home" then (home (sess w), w)
      else if String.eqb e "login_page" then (login_page (sess w), w)
      else if String.eqb e "register_page" then (register_page (sess w), w)
      else if String.eqb e "profile_page" then (profile_page, w)
      else if String.eqb e "chat_app_page" then (chat_app_page, w)
      else if String.eqb e "register_user" then
        let '(rv, users') := register_user (json req) now (users w) in
        (rv, mk_world users' (sess w) (consecutive_errors w))
      else if String.eqb e "login_user" then
        let '(rv, sess') := login_user (json req) (users w) (sess w) in
        (rv, mk_world (users w) sess' (consecutive_errors w))
      else if String.eqb e "logout_user" then
        let '(rv, sess') := logout_user (sess w) in
        (rv, mk_world (users w) sess' (consecutive_errors w))
      else if String.eqb e "get_user_profile" then
        (get_user_profile (users w) (sess w), w)
      else if String.eqb e "static" then (send_static (path req), w)
      else
        let '(rv, errors') := chat (json req) (consecutive_errors w) in
        (rv, mk_world (users w) (sess w) errors')
  end.

(** Flask's [full_dispatch_request]: the [before_request] function runs
    first, and a value it returns is the response; only when it returns
    [None] is the view called. *)
Definition full_dispatch_request (req : request) (now : string) (w : world)
  : response * world :=
  match check_auth (path req) (endpoint req) (sess w) with
  | Some rv => (rv, w)
  | None => dispatch_request req now w
  end.

(** A run of the server on a sequence of requests, each with the clock
    reading it sees. *)
Definition serve (reqs : list (request * string)) (w : world) : world :=
  fold_left (fun w '(req, now) => snd (full_dispatch_request req now w)) reqs w.

(** The state at process start: the global is 0 and no session exists. *)
Definition initial (users : list user) : world :=
  mk_world users Session.empty 0.

(** The two guards at the top of [register_user] let the body through. *)
Definition passes_validation (data : gmap string string) : bool :=
  negb (Py.falsy (data !! "email") || Py.falsy (data !! "password")
        || Py.falsy (data !! "username"))
  && negb (Py.len (default "" (data !! "password")) <? 6)%Z.

(** The guard at the top of [login_user] lets the body through. *)
Definition has_credentials (data : gmap string string) : bool :=
  negb (Py.falsy (data !! "email") || Py.falsy (data !! "password")).

(** A registration form and the table a first registration with it leaves;
    a login form with a wrong password and one with an unknown address. *)
Definition alice_form : gmap string string :=
  {["username" := "alice"; "email" := "alice@example.org";
    "password" := "s3cret!"]}.

Definition alice_row : user :=
  Row.mk 1 "alice" "alice@example.org" "s3cret!" "July 2025".

Definition alice_table : list user := [alice_row].

Definition short_password_form : gmap string string :=
  {["username" := "bob"; "email" := "bob@example.org";
    "password" := "12345"]}.

Definition wrong_password_form : gmap string string :=
  {["email" := "alice@example.org"; "password" := "letmein"]}.

Definition unknown_email_form : gmap string string :=
  {["email" := "mallory@example.org"; "password" := "letmein"]}.

(** A run of [chat] calls on one process: the global after the last call. *)
Definition chat_calls (bodies : list (gmap string string)) (errors : Z) : Z :=
  fold_left (fun errors data => snd (chat data errors)) bodies errors.

(** Every literal [chat] can answer with. *)
Definition canned_replies : list string :=
  [reply_empty; reply_greeting; reply_affirmation; reply_negation;
   reply_gratitude; reply_bca; reply_web_developer; reply_data_scientist;
   reply_cybersecurity; reply_cloud_devops; reply_software_developer;
   reply_python_developer; reply_language_developer; reply_software_tester;
   reply_ml_engineer; reply_dbms; reply_iot_developer;
   reply_android_developer; reply_ios_developer; reply_flutter_developer;
   reply_blockchain_developer; reply_educator; reply_capabilities;
   reply_rephrase].

(** A string of ASCII white space only (the empty string included). *)
Fixpoint blank (s : string) : bool :=
  match s with
  | EmptyString => true
  | String c s' => Py.isspace c && blank s'
  end.

(** The paths [check_auth] lets through without a session. *)
Definition public_paths : list string :=
  ["/login"; "/register"; "/login_user"; "/register_user";
   "/static/style.css"; "/static/script.js"].

(** The row a successful registration appends. *)
Definition new_row (users : list user)
    (username email password now : string) : user :=
  Row.mk (next_id users) username email password now.

(** A second registration form, and the login form that goes with it. *)
Definition bob_form : gmap string string :=
  {["username" := "bob"; "email" := "bob@example.org";
    "password" := "hunter22"]}.

Definition bob_login : gmap string string :=
  {["email" := "bob@example.org"; "password" := "hunter22"]}.

Definition alice_login : gmap string string :=
  {["email" := "alice@example.org"; "password" := "s3cret!"]}.

(** The JSON object [get_user_profile] sends for a row. *)
Definition profile_of (r : user) : list (string * string) :=
  [("username", Row.username r); ("email", Row.email r);
   ("member_since", Row.member_since r); ("account_type", "Standard User")].

(** The session [login_user] binds for a row. *)
Definition session_of (r : user) : session :=
  Session.mk (Some (Row.id r)) (Some (Row.email r)) (Some (Row.username r)).

(** ** Requests as Flask parses them, exceptions, and a store that can fail *)

(** A JSON value as [request.json] gives it: [None], a bool, a number (by
    its literal), a string, a list or a dict. *)
#[warnings="-register-all"]
Inductive json_value :=
| JNull
| JBool (b : bool)
| JNum (literal : string)
| JStr (s : string)
| JArr (items : list json_value)
| JObj (members : gmap string json_value).

(** The result of a call that may raise.  [raises e] is an exception that
    leaves the view; Flask answers it with its own 500 page, and nothing the
    view would have assigned after the raising line is assigned. *)
Inductive outcome (A : Type) : Type :=
| returns (a : A)
| raises (exception : string).
Arguments returns {A} a.
Arguments raises {A} exception.

(** [POST /chat] on an arbitrary JSON body.  Line 202 is
    [request.json.get("message", "").lower().strip()]: [.get] exists on a
    dict only and [.lower] on a string only, so any other body and any other
    message raise [AttributeError] before the counter is touched.  From
    there on the view is the cascade. *)
Definition chat_view (payload : json_value) (consecutive_errors : Z)
  : outcome (response * Z) :=
  match payload with
  | JObj data =>
      match default (JStr "") (data !! "message") with
      | JStr message =>
          let user_message := Py.strip (Py.lower message) in
          let '(reply, consecutive_errors) :=
            chat_body user_message consecutive_errors in
          returns (jsonify [("reply", reply)] 200, consecutive_errors)
      | _ => raises "AttributeError"
      end
  | _ => raises "AttributeError"
  end.

(** The bodies on which line 202 does not raise: a dict whose [message] is
    absent or a string. *)
Definition has_message_string (payload : json_value) : bool :=
  match payload with
  | JObj data =>
      match data !! "message" with
      | None | Some (JStr _) => true
      | Some _ => false
      end
  | _ => false
  end.

(** A string of ASCII characters only. *)
Fixpoint is_ascii (s : string) : bool :=
  match s with
  | EmptyString => true
  | String c s' => (N_of_ascii c <? 128)%N && is_ascii s'
  end.

(** What SQLite may do to a request besides answering from the table: the
    connection may fail to open ([sqlite3.connect] and [conn.cursor()] are
    outside the [try]), and inside the [try] the SELECT or the INSERT with
    its commit may raise [sqlite3.Error] (locked or full database, I/O
    error, rowid exhaustion, ...).  Each field is the text of the error, or
    [None] when the step goes through. *)
Record faults := mk_faults {
  connect_error : option string;
  select_error : option string;
  insert_error : option string
}.

Definition no_faults : faults := mk_faults None None None.

(** [POST /register_user] with the [except sqlite3.Error] branch: on an
    error inside the [try] the transaction is rolled back and the answer is
    500 with the text of the error. *)
Definition register_user_with (db : faults) (data : gmap string string)
    (now : string) (users : list user) : outcome (response * list user) :=
  let email := data !! "email" in
  let password := data !! "password" in
  let username := data !! "username" in
  if Py.falsy email || Py.falsy password || Py.falsy username
  then returns (jsonify [("message",
                          "Email, password, and username are required.")] 400,
                users)
  else
    let email := default "" email in
    let password := default "" password in
    let username := default "" username in
    if (Py.len password <? 6)%Z
    then returns (jsonify [("message",
                            "Password must be at least 6 characters long.")]
                    400, users)
    else
      match connect_error db with
      | Some e => raises e
      | None =>
          let failed e :=
            returns (jsonify [("message", "Registration failed: " +:+ e)] 500,
                     users) in
          match select_error db with
          | Some e => failed e
          | None =>
              match select_by_email_or_username users email username with
              | Some existing_user =>
                  returns (jsonify [("message",
                                     "Email or username already registered.")]
                             409, users)
              | None =>
                  let member_since := now in
                  match insert_error db with
                  | Some e => failed e
                  | None =>
                      match insert_user users username email password
                              member_since with
                      | inr users' =>
                          returns (jsonify
                                     [("message",
                                       "Registration successful! Please log in.")]
                                     201, users')
                      | inl e => failed e
                      end
                  end
              end
          end
      end.

(** [POST /login_user] with the [except sqlite3.Error] branch. *)
Definition login_user_with (db : faults) (data : gmap string string)
    (users : list user) (s : session) : outcome (response * session) :=
  let email := data !! "email" in
  let password := data !! "password" in
  if Py.falsy email || Py.falsy password
  then returns (jsonify [("message", "Email and password are required.")] 400,
                s)
  else
    let email := default "" email in
    let password := default "" password in
    match connect_error db with
    | Some e => raises e
    | None =>
        match select_error db with
        | Some e =>
            returns (jsonify [("message", "Login failed. Please try again.")]
                       500, s)
        | None =>
            match select_by_email users email with
            | Some user =>
                if String.eqb (Row.password user) password
                then returns (jsonify [("message", "Login successful!")] 200,
                              Session.mk (Some (Row.id user))
                                (Some (Row.email user))
                                (Some (Row.username user)))
                else returns (jsonify [("message",
                                        "Invalid email or password.")] 401, s)
            | None =>
                returns (jsonify [("message", "Invalid email or password.")]
                           401, s)
            end
        end
    end.

(** * Properties of the chatbot *)

(** Case analysis along the cascade: one goal per branch. *)
Ltac cascade :=
  unfold chat_body;
  repeat match goal with
         | |- context [if ?b then _ else _] => destruct b eqn:?
         end.

Ltac pick_reply := repeat first [left; reflexivity | right].

Section Cascade.
Variable user_message : string.
Variable errors : Z.

Lemma chat_body_unmatched :
  unmatched user_message = true ->
  chat_body user_message errors = unmatched_turn errors.
Proof.
  unfold unmatched, chat_body.
  repeat match goal with
         | |- context [if ?b then _ else _] =>
             destruct b; [cbn [negb orb]; discriminate |]
         end.
  reflexivity.
Qed.

Lemma chat_body_matched :
  unmatched user_message = false ->
  snd (chat_body user_message errors) = 0.
Proof.
  unfold unmatched, chat_body.
  repeat match goal with
         | |- context [if ?b then _ else _] =>
             destruct b; [reflexivity |]
         end.
  cbn [negb orb]. discriminate.
Qed.

Lemma chat_body_empty :
  user_message = "" -> chat_body user_message errors = (reply_empty, 0).
Proof. intros ->. reflexivity. Qed.

Lemma chat_body_canned : In (fst (chat_body user_message errors)) canned_replies.
Proof.
  unfold canned_replies. cascade; cbn [fst In].
  all: try (pick_reply; fail).
  unfold unmatched_turn. destruct (2 <=? errors + 1)%Z; cbn [fst]; pick_reply.
Qed.

Lemma unmatched_turn_range :
  errors = 0 \/ errors = 1 ->
  snd (unmatched_turn errors) = 0 \/ snd (unmatched_turn errors) = 1.
Proof. intros [-> | ->]; [right | left]; reflexivity. Qed.

Lemma chat_body_range :
  errors = 0 \/ errors = 1 ->
  snd (chat_body user_message errors) = 0
  \/ snd (chat_body user_message errors) = 1.
Proof.
  intros H. destruct (unmatched user_message) eqn:E.
  - rewrite chat_body_unmatched by exact E. now apply unmatched_turn_range.
  - left. now apply chat_body_matched.
Qed.
End Cascade.

Lemma first_strike : unmatched_turn 0 = (reply_rephrase, 1).
Proof. reflexivity. Qed.

Lemma second_strike : unmatched_turn 1 = (reply_capabilities, 0).
Proof. reflexivity. Qed.

Lemma chat_unfold data errors :
  chat data errors =
  (jsonify [("reply", fst (chat_body (normalise data) errors))] 200,
   snd (chat_body (normalise data) errors)).
Proof. unfold chat. now destruct (chat_body _ _). Qed.

Lemma chat_range data errors :
  errors = 0 \/ errors = 1 ->
  snd (chat data errors) = 0 \/ snd (chat data errors) = 1.
Proof. rewrite chat_unfold. cbn [snd]. apply chat_body_range. Qed.

Lemma chat_calls_range bodies : forall errors,
  errors = 0 \/ errors = 1 ->
  chat_calls bodies errors = 0 \/ chat_calls bodies errors = 1.
Proof.
  induction bodies as [| data bodies IH]; intros errors H; [exact H |].
  cbn [chat_calls fold_left]. apply IH, chat_range, H.
Qed.

Lemma gratitude_is_not_cybersecurity : reply_gratitude <> reply_cybersecurity.
Proof. discriminate. Qed.

Lemma rephrase_is_not_capabilities : reply_rephrase <> reply_capabilities.
Proof. discriminate. Qed.

(** * Properties of the account store *)

Section Store.
Variable users : list user.

Lemma id_below_next r : r ∈ users -> Row.id r < next_id users.
Proof.
  unfold next_id. induction users as [| r' l IH]; intros H.
  - inversion H.
  - cbn [map fold_right]. apply elem_of_cons in H as [-> | H]; [lia |].
    specialize (IH H). lia.
Qed.

Lemma next_id_fresh : next_id users ∉ map Row.id users.
Proof.
  intros H. apply list_elem_of_fmap in H as (r & E & Hr).
  apply id_below_next in Hr. lia.
Qed.

Lemma select_none email username :
  select_by_email_or_username users email username = None ->
  forall r, r ∈ users -> Row.email r <> email /\ Row.username r <> username.
Proof.
  intros H r Hr. apply list_elem_of_In in Hr.
  pose proof (find_none _ _ H r Hr) as F. cbn beta in F.
  apply orb_false_iff in F as [F1 F2].
  apply String.eqb_neq in F1, F2. now split.
Qed.

Lemma select_some_of_email r username :
  r ∈ users ->
  exists r', select_by_email_or_username users (Row.email r) username = Some r'.
Proof.
  intros Hr.
  destruct (select_by_email_or_username users (Row.email r) username)
    as [r' |] eqn:E; [now exists r' |].
  destruct (select_none _ _ E r Hr) as [Hne _]. now destruct Hne.
Qed.

Lemma insert_after_select username email password member_since :
  select_by_email_or_username users email username = None ->
  insert_user users username email password member_since
  = inr (users ++ [Row.mk (next_id users) username email password
                     member_since])%list.
Proof.
  intros H. unfold insert_user.
  assert (Hu : existsb (fun r => String.eqb (Row.username r) username) users
               = false).
  { apply not_true_is_false. intros (r & Hr & E)%existsb_exists.
    apply list_elem_of_In in Hr. apply String.eqb_eq in E.
    now destruct (select_none _ _ H r Hr) as [_ []]. }
  assert (He : existsb (fun r => String.eqb (Row.email r) email) users
               = false).
  { apply not_true_is_false. intros (r & Hr & E)%existsb_exists.
    apply list_elem_of_In in Hr. apply String.eqb_eq in E.
    now destruct (select_none _ _ H r Hr) as [[] _]. }
  now rewrite Hu, He.
Qed.

End Store.

Lemma no_row_with_email (l : list user) email :
  email ∉ map Row.email l -> rows_with_email l email = [].
Proof.
  unfold rows_with_email. induction l as [| r l IH]; [reflexivity |].
  cbn [map]. intros [Hne Hnotin]%not_elem_of_cons.
  rewrite filter_cons, decide_False by congruence. now apply IH.
Qed.

Lemma one_row_per_email (l : list user) r :
  NoDup (map Row.email l) -> r ∈ l ->
  length (rows_with_email l (Row.email r)) = 1%nat.
Proof.
  induction l as [| r' l IH]; intros Hnd Hr; [inversion Hr |].
  cbn [map] in Hnd. apply NoDup_cons in Hnd as [Hnotin Hnd].
  unfold rows_with_email. rewrite filter_cons.
  apply elem_of_cons in Hr as [-> | Hr].
  - rewrite decide_True by reflexivity. cbn [length]. f_equal.
    fold (rows_with_email l (Row.email r')).
    now rewrite no_row_with_email.
  - rewrite decide_False.
    + now apply IH.
    + intros E. apply Hnotin. rewrite E. apply list_elem_of_fmap. now exists r.
Qed.

Lemma schema_ok_nil : schema_ok [].
Proof. repeat split; constructor. Qed.

Lemma register_user_cases data now users :
  let rv := fst (register_user data now users) in
  let users' := snd (register_user data now users) in
  (status_code rv = 400 /\ passes_validation data = false /\ users' = users)
  \/ (status_code rv = 409 /\ passes_validation data = true /\ users' = users)
  \/ (status_code rv = 201 /\ passes_validation data = true
      /\ exists username email password,
          data !! "username" = Some username /\ data !! "email" = Some email
          /\ data !! "password" = Some password
          /\ select_by_email_or_username users email username = None
          /\ users' = (users ++ [Row.mk (next_id users) username email password
                                  now])%list).
Proof.
  unfold register_user, passes_validation.
  destruct (_ || _ || _) eqn:G1; cbn [negb andb fst snd status_code];
    [left; auto |].
  destruct (_ <? 6)%Z eqn:G2; cbn [negb fst snd status_code]; [left; auto |].
  apply orb_false_iff in G1 as [[Ge Gp]%orb_false_iff Gu].
  destruct (data !! "email") as [email |]; [| discriminate].
  destruct (data !! "password") as [password |]; [| discriminate].
  destruct (data !! "username") as [username |]; [| discriminate].
  cbn [default from_option id] in *.
  destruct (select_by_email_or_username users email username) eqn:S.
  - cbn [fst snd status_code]. right; left. auto.
  - rewrite insert_after_select by exact S. cbn [fst snd status_code].
    right; right. repeat split. exists username, email, password. auto.
Qed.

(** Registration never reaches its [except sqlite3.Error] branch: the SELECT
    has already excluded what the UNIQUE constraints would reject. *)
Lemma register_user_never_500 data now users :
  status_code (fst (register_user data now users)) <> 500.
Proof.
  pose proof (register_user_cases data now users) as H. cbv zeta in H.
  destruct H as [(E & _) | [(E & _) | (E & _)]]; rewrite E; discriminate.
Qed.

(** The schema constraints are an invariant of registration. *)
Lemma register_user_schema data now users :
  schema_ok users -> schema_ok (snd (register_user data now users)).
Proof.
  intros (Hid & Hname & Hmail).
  pose proof (register_user_cases data now users) as H. cbv zeta in H.
  destruct H as [(_ & _ & ->) | [(_ & _ & ->) | (_ & _ & H)]];
    [now repeat split .. |].
  destruct H as (username & email & password & _ & _ & _ & S & ->).
  unfold schema_ok. rewrite !map_app. cbn [map Row.id Row.username Row.email].
  repeat split; apply NoDup_app; (split; [assumption |]);
    (split; [| apply NoDup_singleton]); intros x Hx ->%list_elem_of_singleton.
  - now apply (next_id_fresh users).
  - apply list_elem_of_fmap in Hx as (r & E & Hr).
    now destruct (select_none _ _ _ S r Hr) as [_ []].
  - apply list_elem_of_fmap in Hx as (r & E & Hr).
    now destruct (select_none _ _ _ S r Hr) as [[] _].
Qed.

(** * Dispatch *)

Lemma dispatch_request_errors req now w :
  consecutive_errors w = 0 \/ consecutive_errors w = 1 ->
  consecutive_errors (snd (dispatch_request req now w)) = 0
  \/ consecutive_errors (snd (dispatch_request req now w)) = 1.
Proof.
  intros H. unfold dispatch_request.
  destruct (match_request req) as [status | e]; [exact H |].
  repeat match goal with
         | |- context [if String.eqb e ?name then _ else _] =>
             destruct (String.eqb e name)
         end; try exact H.
  - now destruct (register_user _ _ _).
  - now destruct (login_user _ _ _).
  - rewrite chat_unfold. cbn [snd consecutive_errors].
    now apply chat_body_range.
Qed.

Lemma full_dispatch_request_errors req now w :
  consecutive_errors w = 0 \/ consecutive_errors w = 1 ->
  consecutive_errors (snd (full_dispatch_request req now w)) = 0
  \/ consecutive_errors (snd (full_dispatch_request req now w)) = 1.
Proof.
  intros H. unfold full_dispatch_request.
  destruct (check_auth _ _ _); [exact H |].
  now apply dispatch_request_errors.
Qed.

Lemma serve_errors reqs : forall w,
  consecutive_errors w = 0 \/ consecutive_errors w = 1 ->
  consecutive_errors (serve reqs w) = 0 \/ consecutive_errors (serve reqs w) = 1.
Proof.
  induction reqs as [| [req now] reqs IH]; intros w H; [exact H |].
  cbn [serve fold_left]. apply IH. now apply full_dispatch_request_errors.
Qed.

(** The in-view guard of [get_user_profile] answers 401 when the view is
    called without a session. *)
Lemma get_user_profile_guard users user_email username :
  get_user_profile users (Session.mk None user_email username)
  = jsonify [("message", "Not authenticated.")] 401.
Proof. reflexivity. Qed.

(** * The claims *)

(** C1.  What [GET /get_user_profile] without a session gets on the code:
    the request never reaches the view and its 401 guard.  [check_auth] runs
    first, the path is not on its allow-list, and its redirect to the login
    page is the response, with status 302, whatever the table, the counter
    and the rest of the session hold. *)
Theorem get_user_profile_without_session_is_redirected
    (data : gmap string string) (now : string) (users : list user)
    (user_email username : option string) (errors : Z) :
  let w := mk_world users (Session.mk None user_email username) errors in
  let rv := fst (full_dispatch_request
                   (mk_request "GET" "/get_user_profile" data) now w) in
  rv = redirect "/login" /\ status_code rv = 302 /\ status_code rv <> 401.
Proof. cbv zeta. repeat split. discriminate. Qed.

(** C2.  From counter 0, three unmatched messages in a row: the first gets
    the "please rephrase" reply and leaves the counter at 1, the second gets
    the capability listing and puts the counter back to 0, the third gets the
    "please rephrase" reply again (counter 1); the two replies differ. *)
Theorem three_unmatched_in_a_row (d1 d2 d3 : gmap string string) :
  unmatched (normalise d1) = true ->
  unmatched (normalise d2) = true ->
  unmatched (normalise d3) = true ->
  let '(rv1, c1) := chat d1 0 in
  let '(rv2, c2) := chat d2 c1 in
  let '(rv3, c3) := chat d3 c2 in
  rv1 = jsonify [("reply", reply_rephrase)] 200 /\ c1 = 1
  /\ rv2 = jsonify [("reply", reply_capabilities)] 200 /\ c2 = 0
  /\ rv3 = jsonify [("reply", reply_rephrase)] 200 /\ c3 = 1
  /\ reply_rephrase <> reply_capabilities.
Proof.
  intros H1 H2 H3. unfold chat.
  rewrite (chat_body_unmatched _ 0 H1), first_strike.
  rewrite (chat_body_unmatched _ 1 H2), second_strike.
  rewrite (chat_body_unmatched _ 0 H3), first_strike.
  repeat split. discriminate.
Qed.

Lemma three_unmatched_in_a_row_witness :
  let '(rv1, c1) := chat {["message" := "What is the weather in Paris?"]} 0 in
  let '(rv2, c2) := chat {["message" := "  LOREM ipsum "]} c1 in
  let '(rv3, c3) := chat {["message" := "42"]} c2 in
  rv1 = jsonify [("reply", reply_rephrase)] 200 /\ c1 = 1
  /\ rv2 = jsonify [("reply", reply_capabilities)] 200 /\ c2 = 0
  /\ rv3 = jsonify [("reply", reply_rephrase)] 200 /\ c3 = 1
  /\ reply_rephrase <> reply_capabilities.
Proof.
  apply (three_unmatched_in_a_row
           {["message" := "What is the weather in Paris?"]}
           {["message" := "  LOREM ipsum "]} {["message" := "42"]});
    vm_compute; reflexivity.
Defined.

(** Off the bodies with a message string the view raises, and only there. *)
Lemma chat_view_raises (payload : json_value) (errors : Z) :
  (exists e, chat_view payload errors = raises e)
  <-> has_message_string payload = false.
Proof.
  unfold chat_view, has_message_string.
  destruct payload as [| b | n | s | l | data];
    try (split; [reflexivity | intros _; eexists; reflexivity]).
  destruct (data !! "message") as [[| b | n | s | l | o] |];
    cbn [default from_option id];
    try (split; [reflexivity | intros _; eexists; reflexivity]);
    destruct (chat_body _ _); split; try discriminate; intros [e H];
    discriminate H.
Qed.

(** On a dict of strings the view is [chat]. *)
Lemma chat_view_on_strings (data : gmap string string) (errors : Z) :
  chat_view (JObj (JStr <$> data)) errors = returns (chat data errors).
Proof.
  unfold chat_view, chat, normalise. rewrite lookup_fmap.
  destruct (data !! "message"); cbn [fmap option_fmap option_map default
                                     from_option id];
    now destruct (chat_body _ _).
Qed.

(** C3.  [chat] has no error path on message strings.  The view can raise:
    line 202 raises on a body that is not a dict and on a message that is not
    a string.  On a dict whose message is a string (the empty string and
    unmatched text included) or is absent, and for every value of the
    counter, it does not: it returns 200 with the reply the cascade gives
    for the normalised message, which is one of the canned replies. *)
Theorem chat_has_no_error_path
    (data : gmap string json_value) (message : string) (errors : Z) :
  data !! "message" = Some (JStr message)
  \/ (data !! "message" = None /\ message = "") ->
  let user_message := Py.strip (Py.lower message) in
  chat_view (JObj data) errors
  = returns (jsonify [("reply", fst (chat_body user_message errors))] 200,
             snd (chat_body user_message errors))
  /\ In (fst (chat_body user_message errors)) canned_replies.
Proof.
  intros H. cbv zeta. split; [| apply chat_body_canned].
  unfold chat_view. destruct H as [-> | [-> ->]]; cbn [default from_option id];
    now destruct (chat_body _ _).
Qed.

Lemma chat_has_no_error_path_witness :
  let user_message := Py.strip (Py.lower " %%% Zzz?? ") in
  chat_view (JObj {["message" := JStr " %%% Zzz?? "; "extra" := JNull]}) 1
  = returns (jsonify [("reply", fst (chat_body user_message 1))] 200,
             snd (chat_body user_message 1))
  /\ In (fst (chat_body user_message 1)) canned_replies.
Proof.
  apply (chat_has_no_error_path
           {["message" := JStr " %%% Zzz?? "; "extra" := JNull]}
           " %%% Zzz?? " 1).
  left. reflexivity.
Defined.

(** C4.  When the normalised message takes any branch but the unmatched one,
    the counter is 0 after the call whatever it was before; this includes the
    empty message, which takes the first branch and is answered with the
    clarification prompt. *)
Theorem matched_turn_resets_counter (data : gmap string string) (errors : Z) :
  unmatched (normalise data) = false ->
  snd (chat data errors) = 0
  /\ (normalise data = "" ->
      fst (chat data errors) = jsonify [("reply", reply_empty)] 200)
  /\ unmatched "" = false.
Proof.
  intros H. rewrite chat_unfold. cbn [fst snd]. split; [| split].
  - now apply chat_body_matched.
  - intros E. now rewrite chat_body_empty.
  - reflexivity.
Qed.

Lemma matched_turn_resets_counter_witness :
  snd (chat {["message" := "   "]} 7) = 0
  /\ (normalise {["message" := "   "]} = "" ->
      fst (chat {["message" := "   "]} 7)
      = jsonify [("reply", reply_empty)] 200)
  /\ unmatched "" = false.
Proof.
  apply (matched_turn_resets_counter {["message" := "   "]} 7).
  vm_compute. reflexivity.
Defined.

(** The Web Developer rule as a whole: once the six earlier tests have
    failed, any of its four keywords selects the Web Developer block. *)
Lemma web_developer_rule (user_message : string) (errors : Z) :
  Rule.empty user_message = false -> Rule.greeting user_message = false ->
  Rule.affirmation user_message = false -> Rule.negation user_message = false ->
  Rule.gratitude user_message = false -> Rule.bca user_message = false ->
  ("web developer" isin user_message) = true
  \/ ("web dev" isin user_message) = true
  \/ ("frontend" isin user_message) = true
  \/ ("backend" isin user_message) = true ->
  chat_body user_message errors = (reply_web_developer, 0).
Proof.
  intros H1 H2 H3 H4 H5 H6 H. unfold chat_body.
  rewrite H1, H2, H3, H4, H5, H6.
  replace (Rule.web_developer user_message) with true; [reflexivity |].
  symmetry. unfold Rule.web_developer.
  destruct H as [-> | [-> | [-> | ->]]];
    rewrite ?orb_true_r; reflexivity.
Qed.

(** C5.  "I'd like info on web developer roles" and "backend" get the same
    reply, the Web Developer block, whatever the counter is at either call. *)
Theorem web_developer_disjunction (errors errors' : Z) :
  fst (chat {["message" := "I'd like info on web developer roles"]} errors)
  = fst (chat {["message" := "backend"]} errors')
  /\ fst (chat {["message" := "backend"]} errors')
     = jsonify [("reply", reply_web_developer)] 200.
Proof. split; vm_compute; reflexivity. Qed.

(** C9.  "cybersecurity" is answered with the gratitude acknowledgment, not
    with the Cybersecurity block: "ty" occurs in it, the gratitude test comes
    first in the cascade, and the cybersecurity test, which would hold, is
    never reached. *)
Theorem cybersecurity_is_thanked (errors : Z) :
  chat {["message" := "cybersecurity"]} errors
  = (jsonify [("reply", reply_gratitude)] 200, 0)
  /\ reply_gratitude <> reply_cybersecurity
  /\ ("ty" isin "cybersecurity") = true
  /\ Rule.gratitude "cybersecurity" = true
  /\ Rule.cybersecurity "cybersecurity" = true.
Proof.
  split; [vm_compute; reflexivity |].
  split; [exact gratitude_is_not_cybersecurity |].
  repeat split.
Qed.

(** C10.  From the initial value 0 the counter is 0 or 1 after every call:
    after any sequence of [chat] calls, and after any sequence of requests
    served by the application, whatever the table and the session. *)
Theorem counter_is_zero_or_one :
  (forall bodies : list (gmap string string),
      chat_calls bodies 0 = 0 \/ chat_calls bodies 0 = 1)
  /\ (forall (reqs : list (request * string)) (users : list user)
             (s : session),
         consecutive_errors (serve reqs (mk_world users s 0)) = 0
         \/ consecutive_errors (serve reqs (mk_world users s 0)) = 1).
Proof.
  split.
  - intros bodies. apply chat_calls_range. now left.
  - intros reqs users s. apply serve_errors. now left.
Qed.

(** C6.  In a table that holds a row with a given e-mail address, a
    registration with that address that gets past the field checks is
    answered 409, leaves the table as it was, and the table has exactly one
    row with that address. *)
Theorem duplicate_email_is_rejected
    (data : gmap string string) (now : string) (users : list user)
    (r : user) :
  schema_ok users ->
  r ∈ users ->
  data !! "email" = Some (Row.email r) ->
  passes_validation data = true ->
  register_user data now users
  = (jsonify [("message", "Email or username already registered.")] 409,
     users)
  /\ length (rows_with_email (snd (register_user data now users))
               (Row.email r)) = 1%nat.
Proof.
  intros (_ & _ & Hmail) Hr He Hv.
  assert (E : register_user data now users
              = (jsonify [("message", "Email or username already registered.")]
                   409, users)).
  { unfold passes_validation in Hv.
    apply andb_true_iff in Hv as [G1%negb_true_iff G2%negb_true_iff].
    unfold register_user. rewrite G1, G2, He. cbn [default from_option id].
    destruct (select_some_of_email users r
                (default "" (data !! "username")) Hr) as [r' ->].
    reflexivity. }
  split; [exact E |]. rewrite E. cbn [snd]. now apply one_row_per_email.
Qed.

Example alice_registers :
  register_user alice_form "July 2025" []
  = (jsonify [("message", "Registration successful! Please log in.")] 201,
     alice_table).
Proof. vm_compute. reflexivity. Qed.

Lemma duplicate_email_is_rejected_witness :
  register_user alice_form "August 2025" alice_table
  = (jsonify [("message", "Email or username already registered.")] 409,
     alice_table)
  /\ length (rows_with_email
               (snd (register_user alice_form "August 2025" alice_table))
               "alice@example.org") = 1%nat.
Proof.
  apply (duplicate_email_is_rejected alice_form "August 2025" alice_table
           alice_row).
  - repeat split; apply NoDup_singleton.
  - apply list_elem_of_here.
  - vm_compute. reflexivity.
  - vm_compute. reflexivity.
Defined.

(** C7.  A registration whose username, e-mail address or password is
    missing or empty, or whose password has fewer than 6 characters, is
    answered 400 and the table is left as it was. *)
Theorem invalid_registration_is_rejected
    (data : gmap string string) (now : string) (users : list user) :
  Py.falsy (data !! "username") = true
  \/ Py.falsy (data !! "email") = true
  \/ Py.falsy (data !! "password") = true
  \/ (exists password,
        data !! "password" = Some password /\ Py.len password < 6) ->
  status_code (fst (register_user data now users)) = 400
  /\ snd (register_user data now users) = users.
Proof.
  intros H. unfold register_user.
  destruct (_ || _ || _) eqn:G1; [now split |].
  apply orb_false_iff in G1 as [[Ge Gp]%orb_false_iff Gu].
  destruct H as [H | [H | [H | (password & E & H)]]]; [congruence .. |].
  rewrite E. cbn [default from_option id].
  apply Z.ltb_lt in H. rewrite H. now split.
Qed.

Lemma invalid_registration_is_rejected_witness :
  status_code (fst (register_user short_password_form "July 2025" alice_table))
  = 400
  /\ snd (register_user short_password_form "July 2025" alice_table)
     = alice_table.
Proof.
  apply (invalid_registration_is_rejected short_password_form "July 2025"
           alice_table).
  right; right; right. exists "12345". split; vm_compute; reflexivity.
Defined.

(** Any two failed logins with the same body get the same response, whatever
    the two tables hold. *)
Lemma failed_logins_agree data users1 users2 s :
  status_code (fst (login_user data users1 s)) <> 200 ->
  status_code (fst (login_user data users2 s)) <> 200 ->
  login_user data users1 s = login_user data users2 s.
Proof.
  unfold login_user. destruct (_ || _); [reflexivity |].
  destruct (select_by_email users1 _) as [u1 |],
           (select_by_email users2 _) as [u2 |];
    repeat match goal with
           | |- context [if String.eqb ?a ?b then _ else _] =>
               destruct (String.eqb a b)
           end; cbn [fst status_code]; congruence.
Qed.

(** C8.  A login with the address of an existing row and a password that is
    not that row's, and a login with an address no row has, are both answered
    401 with the same message (the whole response is the same), and neither
    touches the session. *)
Theorem login_does_not_reveal_accounts
    (users : list user) (s : session) (wrong unknown : gmap string string)
    (r : user) (email password email' password' : string) :
  wrong !! "email" = Some email -> wrong !! "password" = Some password ->
  unknown !! "email" = Some email' -> unknown !! "password" = Some password' ->
  has_credentials wrong = true -> has_credentials unknown = true ->
  select_by_email users email = Some r -> Row.password r <> password ->
  select_by_email users email' = None ->
  login_user wrong users s
  = (jsonify [("message", "Invalid email or password.")] 401, s)
  /\ login_user unknown users s
     = (jsonify [("message", "Invalid email or password.")] 401, s)
  /\ fst (login_user wrong users s) = fst (login_user unknown users s).
Proof.
  intros He Hp He' Hp' Hc Hc' Hr Hpw Hnone.
  unfold has_credentials in Hc, Hc'. apply negb_true_iff in Hc, Hc'.
  unfold login_user. rewrite Hc, Hc', He, Hp, He', Hp'.
  cbn [default from_option id]. rewrite Hr, Hnone.
  apply String.eqb_neq in Hpw. rewrite Hpw. now repeat split.
Qed.

Lemma login_does_not_reveal_accounts_witness :
  login_user wrong_password_form alice_table Session.empty
  = (jsonify [("message", "Invalid email or password.")] 401, Session.empty)
  /\ login_user unknown_email_form alice_table Session.empty
     = (jsonify [("message", "Invalid email or password.")] 401,
        Session.empty)
  /\ fst (login_user wrong_password_form alice_table Session.empty)
     = fst (login_user unknown_email_form alice_table Session.empty).
Proof.
  apply (login_does_not_reveal_accounts alice_table Session.empty
           wrong_password_form unknown_email_form alice_row
           "alice@example.org" "letmein" "mallory@example.org" "letmein");
    try (vm_compute; reflexivity).
  vm_compute. discriminate.
Defined.

(** * Substrings *)

Lemma append_cons c (s t : string) : String c s +:+ t = String c (s +:+ t).
Proof. reflexivity. Qed.

Lemma append_assoc (a b c : string) : (a +:+ b) +:+ c = a +:+ (b +:+ c).
Proof.
  induction a as [| x a IH]; [reflexivity |].
  rewrite !append_cons. now rewrite IH.
Qed.

Lemma startswith_spec s p :
  Py.startswith s p = true <-> exists r, s = p +:+ r.
Proof.
  unfold Py.startswith. revert s.
  induction p as [| c p IH]; intros s.
  - split; [intros _; now exists s | intros _; now destruct s].
  - destruct s as [| c' s]; cbn [String.prefix].
    { split; [discriminate | intros [r E]; discriminate]. }
    destruct (Ascii.ascii_dec c c') as [-> | Hne].
    + rewrite IH. split; intros [r E]; exists r; rewrite append_cons in *;
        congruence.
    + split; [discriminate |].
      intros [r E]. rewrite append_cons in E. congruence.
Qed.

Lemma contains_spec sub s :
  (sub isin s) = true <-> exists l r, s = l +:+ sub +:+ r.
Proof.
  induction s as [| c s IH]; cbn [Py.contains].
  - rewrite startswith_spec. split.
    + intros [r E]. now exists "", r.
    + intros (l & r & E). destruct l; [now exists r | discriminate].
  - rewrite orb_true_iff, startswith_spec, IH. split.
    + intros [[r E] | (l & r & E)].
      * now exists "", r.
      * exists (String c l), r. rewrite append_cons. now rewrite E.
    + intros (l & r & E). destruct l as [| c' l].
      * left. now exists r.
      * right. exists l, r. rewrite append_cons in E. congruence.
Qed.

(** [in] on strings is transitive. *)
Lemma contains_trans a b s :
  (a isin b) = true -> (b isin s) = true -> (a isin s) = true.
Proof.
  rewrite !contains_spec. intros (l1 & r1 & ->) (l2 & r2 & ->).
  exists (l2 +:+ l1), (r1 +:+ r2). now rewrite !append_assoc.
Qed.

Lemma contains_nonempty sub s :
  sub <> "" -> (sub isin s) = true -> Py.is_empty s = false.
Proof.
  intros Hne H. destruct s; [| reflexivity].
  cbn in H. destruct sub; [now destruct Hne | discriminate].
Qed.

Lemma elem_spec x l : Py.elem x l = true <-> In x l.
Proof.
  unfold Py.elem. rewrite existsb_exists. split.
  - intros (y & Hy & E). apply String.eqb_eq in E. now subst.
  - intros H. exists x. split; [exact H | apply String.eqb_refl].
Qed.

(** * More on the cascade *)

Lemma hi_is_a_greeting user_message :
  ("hi" isin user_message) = true -> Rule.greeting user_message = true.
Proof.
  intros H. unfold Rule.greeting, Py.any. cbn [existsb].
  rewrite H. now rewrite orb_true_r.
Qed.

Lemma ty_is_gratitude user_message :
  ("ty" isin user_message) = true -> Rule.gratitude user_message = true.
Proof. intros H. unfold Rule.gratitude. rewrite H. apply orb_true_r. Qed.

Lemma cybersecurity_implies_gratitude user_message :
  Rule.cybersecurity user_message = true -> Rule.gratitude user_message = true.
Proof.
  unfold Rule.cybersecurity. intros H. apply ty_is_gratitude.
  apply orb_true_iff in H as [H | H]; [apply orb_true_iff in H as [H | H] |];
    (eapply contains_trans; [| exact H]); reflexivity.
Qed.

Lemma chat_body_never_cybersecurity user_message errors :
  fst (chat_body user_message errors) <> reply_cybersecurity.
Proof.
  pose proof (cybersecurity_implies_gratitude user_message) as Hsh.
  unfold chat_body.
  repeat match goal with
         | |- context [if ?b then _ else _] =>
             let E := fresh "E" in
             destruct b eqn:E;
             [try (cbn [fst]; apply String.eqb_neq; vm_compute; reflexivity) |]
         end.
  - discriminate (Hsh eq_refl).
  - unfold unmatched_turn. destruct (2 <=? errors + 1)%Z; cbn [fst];
      apply String.eqb_neq; vm_compute; reflexivity.
Qed.

(** * White space and case *)

Lemma lower_char_idem c : Py.lower_char (Py.lower_char c) = Py.lower_char c.
Proof. destruct c as [[] [] [] [] [] [] [] []]; reflexivity. Qed.

Lemma isspace_lower_char c : Py.isspace (Py.lower_char c) = Py.isspace c.
Proof. destruct c as [[] [] [] [] [] [] [] []]; reflexivity. Qed.

Lemma lower_idem s : Py.lower (Py.lower s) = Py.lower s.
Proof.
  induction s as [| c s IH]; [reflexivity |].
  cbn [Py.lower]. now rewrite lower_char_idem, IH.
Qed.

Lemma lower_append s t : Py.lower (s +:+ t) = Py.lower s +:+ Py.lower t.
Proof.
  induction s as [| c s IH]; [reflexivity |].
  rewrite append_cons. cbn [Py.lower]. now rewrite append_cons, IH.
Qed.

Lemma blank_lower s : blank (Py.lower s) = blank s.
Proof.
  induction s as [| c s IH]; [reflexivity |].
  cbn [Py.lower blank]. now rewrite isspace_lower_char, IH.
Qed.

Lemma lstrip_blank s : blank s = true -> Py.lstrip s = "".
Proof.
  induction s as [| c s IH]; [reflexivity |].
  cbn [blank Py.lstrip]. intros [-> H]%andb_true_iff. now apply IH.
Qed.

Lemma lstrip_not_blank s : blank s = false -> Py.lstrip s <> "".
Proof.
  induction s as [| c s IH]; [discriminate |].
  cbn [blank Py.lstrip]. destruct (Py.isspace c); [exact IH | discriminate].
Qed.

Lemma lstrip_append s t :
  Py.lstrip (s +:+ t)
  = if blank s then Py.lstrip t else Py.lstrip s +:+ t.
Proof.
  induction s as [| c s IH]; [reflexivity |].
  rewrite append_cons. cbn [Py.lstrip blank].
  destruct (Py.isspace c); [exact IH | now rewrite append_cons].
Qed.

Lemma rstrip_blank s : blank s = true -> Py.rstrip s = "".
Proof.
  induction s as [| c s IH]; [reflexivity |].
  cbn [blank Py.rstrip]. intros [-> H]%andb_true_iff. now rewrite IH.
Qed.

Lemma rstrip_append_blank s t :
  blank t = true -> Py.rstrip (s +:+ t) = Py.rstrip s.
Proof.
  intros H. induction s as [| c s IH]; [now apply rstrip_blank |].
  rewrite append_cons. cbn [Py.rstrip]. now rewrite IH.
Qed.

(** White space around a string does not survive [strip]. *)
Lemma strip_padding l s r :
  blank l = true -> blank r = true ->
  Py.strip (l +:+ s +:+ r) = Py.strip s.
Proof.
  intros Hl Hr. unfold Py.strip. rewrite lstrip_append, Hl, lstrip_append.
  destruct (blank s) eqn:Hs.
  - now rewrite (lstrip_blank r), (lstrip_blank s).
  - now apply rstrip_append_blank.
Qed.

(** * More properties of the chatbot *)

(** [chat] answers a body with the given message. *)
Ltac answered_by m c :=
  exists {["message" := m]}, c; vm_compute; reflexivity.

(** X1.  The replies [chat] can give are exactly the canned literals other
    than the Cybersecurity block: each of the other 23 is the answer to some
    body at some counter value, and no body at any counter value is answered
    with the Cybersecurity block. *)
Theorem replies_of_chat (reply : string) :
  (exists (data : gmap string string) (errors : Z),
      fst (chat data errors) = jsonify [("reply", reply)] 200)
  <-> In reply canned_replies /\ reply <> reply_cybersecurity.
Proof.
  split.
  - intros (data & errors & E). rewrite chat_unfold in E. cbn [fst] in E.
    injection E as <-. split.
    + apply chat_body_canned.
    + apply chat_body_never_cybersecurity.
  - intros [H Hne]. unfold canned_replies in H. cbn [In] in H.
    repeat (destruct H as [<- | H];
            [first [ now destruct Hne
                   | answered_by "" 0 | answered_by "hello" 0
                   | answered_by "yes" 0 | answered_by "no" 0
                   | answered_by "thanks" 0 | answered_by "jobs after bca" 0
                   | answered_by "backend" 0 | answered_by "data science" 0
                   | answered_by "devops" 0 | answered_by "programmer" 0
                   | answered_by "python developer" 0
                   | answered_by "java developer" 0
                   | answered_by "qa engineer" 0 | answered_by "ml engineer" 0
                   | answered_by "dbms" 0 | answered_by "iot developer" 0
                   | answered_by "android app" 0 | answered_by "ios app" 0
                   | answered_by "flutter app" 0
                   | answered_by "crypto developer" 0 | answered_by "teacher" 0
                   | answered_by "42" 1 | answered_by "42" 0 ] |]).
    destruct H.
Qed.

(** X2.  A message in which "hi" occurs anywhere is a greeting, so a keyword
    that contains "hi" ("machine learning engineer", "database architect",
    "internet of things developer") never selects its own topic: a message
    containing it gets the greeting, and the counter is reset. *)
Theorem hi_anywhere_is_a_greeting
    (data : gmap string string) (errors : Z) (keyword : string) :
  ("hi" isin keyword) = true ->
  (keyword isin normalise data) = true ->
  chat data errors = (jsonify [("reply", reply_greeting)] 200, 0).
Proof.
  intros Hk Hm. pose proof (contains_trans _ _ _ Hk Hm) as Hhi.
  unfold chat, chat_body.
  rewrite (contains_nonempty "hi" _ ltac:(discriminate) Hhi : Rule.empty _ = false).
  now rewrite (hi_is_a_greeting _ Hhi).
Qed.

Lemma hi_anywhere_is_a_greeting_witness :
  chat {["message" := "How do I become a Machine Learning Engineer?"]} 1
  = (jsonify [("reply", reply_greeting)] 200, 0).
Proof.
  apply (hi_anywhere_is_a_greeting _ 1 "machine learning engineer");
    vm_compute; reflexivity.
Defined.

(** X3.  A message in which "ty" occurs anywhere ("quality assurance",
    "security analyst", "university") is answered with the greeting or with
    the gratitude acknowledgment, never with a topic block or a fallback, and
    the counter is reset. *)
Theorem ty_anywhere_is_thanked
    (data : gmap string string) (errors : Z) (keyword : string) :
  ("ty" isin keyword) = true ->
  (keyword isin normalise data) = true ->
  chat data errors = (jsonify [("reply", reply_greeting)] 200, 0)
  \/ chat data errors = (jsonify [("reply", reply_gratitude)] 200, 0).
Proof.
  unfold chat. generalize (normalise data) as user_message.
  intros user_message Hk Hm.
  pose proof (contains_trans _ _ _ Hk Hm) as Hty. unfold chat_body.
  rewrite (contains_nonempty "ty" _ ltac:(discriminate) Hty : Rule.empty _ = false).
  destruct (Rule.greeting _); [now left |].
  destruct (Rule.affirmation _) eqn:Ha.
  { apply elem_spec in Ha. cbn [In] in Ha.
    repeat (destruct Ha as [<- | Ha]; [vm_compute in Hty; discriminate Hty |]). destruct Ha. }
  destruct (Rule.negation _) eqn:Hn.
  { apply elem_spec in Hn. cbn [In] in Hn.
    repeat (destruct Hn as [<- | Hn]; [vm_compute in Hty; discriminate Hty |]). destruct Hn. }
  rewrite (ty_is_gratitude _ Hty). now right.
Qed.

Lemma ty_anywhere_is_thanked_witness :
  chat {["message" := "Tell me about Quality Assurance"]} 0
  = (jsonify [("reply", reply_greeting)] 200, 0)
  \/ chat {["message" := "Tell me about Quality Assurance"]} 0
     = (jsonify [("reply", reply_gratitude)] 200, 0).
Proof.
  apply (ty_anywhere_is_thanked _ 0 "quality assurance");
    vm_compute; reflexivity.
Defined.

(** X4.  A matched turn breaks the streak: after a call that takes any
    branch but the unmatched one, whatever the counter was, an unmatched
    message gets the "please rephrase" reply and leaves the counter at 1. *)
Theorem matched_turn_breaks_streak
    (d1 d2 : gmap string string) (errors : Z) :
  unmatched (normalise d1) = false ->
  unmatched (normalise d2) = true ->
  chat d2 (snd (chat d1 errors))
  = (jsonify [("reply", reply_rephrase)] 200, 1).
Proof.
  intros H1 H2. rewrite (chat_unfold d1). cbn [snd].
  rewrite (chat_body_matched _ errors H1).
  unfold chat. now rewrite (chat_body_unmatched _ 0 H2), first_strike.
Qed.

Lemma matched_turn_breaks_streak_witness :
  chat {["message" := "what about 42?"]}
    (snd (chat {["message" := "Hello there"]} 1))
  = (jsonify [("reply", reply_rephrase)] 200, 1).
Proof.
  apply (matched_turn_breaks_streak {["message" := "Hello there"]}
           {["message" := "what about 42?"]} 1); vm_compute; reflexivity.
Defined.

(** X5.  On ASCII text, case and surrounding white space do not matter:
    two bodies whose ASCII messages are equal up to letter case, the second
    one padded on either side with ASCII white space (TAB, LF, VT, FF, CR,
    the separators 0x1c..0x1f, the blank), get the same response and leave
    the same counter. *)
Theorem chat_ignores_case_and_padding
    (data data' : gmap string string) (m m' l r : string) (errors : Z) :
  is_ascii m = true -> is_ascii m' = true ->
  data !! "message" = Some m ->
  data' !! "message" = Some (l +:+ m' +:+ r) ->
  Py.lower m' = Py.lower m ->
  blank l = true -> blank r = true ->
  chat data' errors = chat data errors.
Proof.
  intros _ _ E E' Hcase Hl Hr.
  assert (N : normalise data' = normalise data).
  { unfold normalise. rewrite E, E'. cbn [default from_option id].
    rewrite !lower_append, Hcase.
    apply strip_padding; now rewrite blank_lower. }
  unfold chat. now rewrite N.
Qed.

Lemma chat_ignores_case_and_padding_witness :
  chat {["message" := "  Data SCIENCE   "]} 1
  = chat {["message" := "data science"]} 1.
Proof.
  apply (chat_ignores_case_and_padding _ _ "data science" "Data SCIENCE"
           "  " "   " 1); vm_compute; reflexivity.
Defined.

(** X6.  A body without a [message] key, and a body whose message is made
    of ASCII white space only (TAB, LF, VT, FF, CR, the separators
    0x1c..0x1f, the blank), are answered with the clarification prompt and
    reset the counter. *)
Theorem blank_message_is_prompted (data : gmap string string) (errors : Z) :
  data !! "message" = None
  \/ (exists m, data !! "message" = Some m /\ blank m = true) ->
  chat data errors = (jsonify [("reply", reply_empty)] 200, 0).
Proof.
  intros H.
  assert (N : normalise data = "").
  { unfold normalise. destruct H as [-> | (m & -> & Hm)]; [reflexivity |].
    cbn [default from_option id]. unfold Py.strip.
    rewrite lstrip_blank; [reflexivity | now rewrite blank_lower]. }
  unfold chat. now rewrite N.
Qed.

Lemma blank_message_is_prompted_witness :
  chat ∅ 1 = (jsonify [("reply", reply_empty)] 200, 0).
Proof. apply (blank_message_is_prompted ∅ 1). left. reflexivity. Defined.

(** * More properties of the account store *)

Lemma select_by_email_in users email r :
  select_by_email users email = Some r -> r ∈ users /\ Row.email r = email.
Proof.
  intros [Hin E]%find_some. split; [now apply list_elem_of_In |].
  now apply String.eqb_eq.
Qed.

Lemma select_by_email_unique users r :
  NoDup (map Row.email users) -> r ∈ users ->
  select_by_email users (Row.email r) = Some r.
Proof.
  unfold select_by_email.
  induction users as [| r' l IH]; intros Hnd Hr; [inversion Hr |].
  cbn [map] in Hnd. apply NoDup_cons in Hnd as [Hnotin Hnd]. cbn [find].
  apply elem_of_cons in Hr as [-> | Hr]; [now rewrite String.eqb_refl |].
  destruct (String.eqb_spec (Row.email r') (Row.email r)) as [E | _].
  - destruct Hnotin. rewrite E. apply list_elem_of_fmap. now exists r.
  - now apply IH.
Qed.

Lemma select_by_id_unique users r :
  NoDup (map Row.id users) -> r ∈ users ->
  select_by_id users (Row.id r) = Some r.
Proof.
  unfold select_by_id.
  induction users as [| r' l IH]; intros Hnd Hr; [inversion Hr |].
  cbn [map] in Hnd. apply NoDup_cons in Hnd as [Hnotin Hnd]. cbn [find].
  apply elem_of_cons in Hr as [-> | Hr]; [now rewrite Z.eqb_refl |].
  destruct (Z.eqb_spec (Row.id r') (Row.id r)) as [E | _].
  - destruct Hnotin. rewrite E. apply list_elem_of_fmap. now exists r.
  - now apply IH.
Qed.

Lemma select_by_email_new users r :
  (forall r', r' ∈ users -> Row.email r' <> Row.email r) ->
  select_by_email (users ++ [r]) (Row.email r) = Some r.
Proof.
  unfold select_by_email. induction users as [| r' l IH]; intros H.
  - cbn. now rewrite String.eqb_refl.
  - cbn [app find].
    destruct (String.eqb_spec (Row.email r') (Row.email r)) as [E | _].
    + destruct (H r'); [left | exact E].
    + apply IH. intros r'' Hr''. apply H. now right.
Qed.

Lemma select_none_intro users email username :
  (forall r, r ∈ users -> Row.email r <> email /\ Row.username r <> username) ->
  select_by_email_or_username users email username = None.
Proof.
  intros H. unfold select_by_email_or_username.
  destruct (find _ users) as [r |] eqn:F; [| reflexivity].
  apply find_some in F as [Hin F]. apply list_elem_of_In in Hin.
  destruct (H r Hin) as [He Hu].
  apply orb_true_iff in F as [F | F]; apply String.eqb_eq in F; contradiction.
Qed.

Lemma select_some_intro users email username r :
  r ∈ users -> Row.email r = email \/ Row.username r = username ->
  exists r', select_by_email_or_username users email username = Some r'.
Proof.
  intros Hr H.
  destruct (select_by_email_or_username users email username) as [r' |] eqn:S;
    [now exists r' |].
  destruct (select_none _ _ _ S r Hr) as [He Hu]. now destruct H.
Qed.

Lemma passes_validation_fields data :
  passes_validation data = true ->
  exists username email password,
    data !! "username" = Some username /\ data !! "email" = Some email
    /\ data !! "password" = Some password.
Proof.
  unfold passes_validation.
  intros [[[He Hp]%orb_false_iff Hu]%negb_true_iff%orb_false_iff _]%andb_true_iff.
  destruct (data !! "email") as [e |]; [| discriminate].
  destruct (data !! "password") as [p |]; [| discriminate].
  destruct (data !! "username") as [u |]; [| discriminate].
  now exists u, e, p.
Qed.

Lemma register_user_valid data now users username email password :
  data !! "username" = Some username -> data !! "email" = Some email ->
  data !! "password" = Some password -> passes_validation data = true ->
  register_user data now users
  = match select_by_email_or_username users email username with
    | Some _ =>
        (jsonify [("message", "Email or username already registered.")] 409,
         users)
    | None =>
        (jsonify [("message", "Registration successful! Please log in.")] 201,
         (users ++ [new_row users username email password now])%list)
    end.
Proof.
  intros Hu He Hp Hv. unfold passes_validation in Hv.
  apply andb_true_iff in Hv as [G1%negb_true_iff G2%negb_true_iff].
  unfold register_user. rewrite G1, G2, Hu, He, Hp.
  cbn [default from_option id].
  destruct (select_by_email_or_username users email username) eqn:S;
    [reflexivity |].
  now rewrite insert_after_select.
Qed.

(** X7.  A registration that gets past the field checks and whose address
    and username no row has is answered 201 and appends one row to the table:
    the next id, the three fields as sent (the password verbatim) and the
    clock reading. *)
Theorem registration_creates_account
    (data : gmap string string) (now : string) (users : list user)
    (username email password : string) :
  data !! "username" = Some username -> data !! "email" = Some email ->
  data !! "password" = Some password -> passes_validation data = true ->
  (forall r, r ∈ users ->
             Row.email r <> email /\ Row.username r <> username) ->
  register_user data now users
  = (jsonify [("message", "Registration successful! Please log in.")] 201,
     (users ++ [Row.mk (next_id users) username email password now])%list).
Proof.
  intros Hu He Hp Hv Hfree.
  rewrite (register_user_valid _ _ _ _ _ _ Hu He Hp Hv).
  now rewrite (select_none_intro _ _ _ Hfree).
Qed.

Lemma registration_creates_account_witness :
  register_user bob_form "August 2025" alice_table
  = (jsonify [("message", "Registration successful! Please log in.")] 201,
     (alice_table
        ++ [Row.mk (next_id alice_table) "bob" "bob@example.org" "hunter22"
              "August 2025"])%list).
Proof.
  apply (registration_creates_account bob_form "August 2025" alice_table
           "bob" "bob@example.org" "hunter22");
    try (vm_compute; reflexivity).
  intros r ->%list_elem_of_singleton. split; discriminate.
Defined.

(** Without faults the view is [register_user]. *)
Lemma register_user_without_faults data now users :
  register_user_with no_faults data now users
  = returns (register_user data now users).
Proof.
  unfold register_user_with, register_user, no_faults.
  cbn [connect_error select_error insert_error].
  destruct (_ || _ || _); [reflexivity |].
  destruct (_ <? 6)%Z; [reflexivity |].
  destruct (select_by_email_or_username _ _ _); [reflexivity |].
  now destruct (insert_user _ _ _ _ _).
Qed.


(** X9.  In a table that holds a row with a given username, a registration
    with that username that gets past the field checks is answered 409 and
    leaves the table as it was, whatever address it carries. *)
Theorem duplicate_username_is_rejected
    (data : gmap string string) (now : string) (users : list user)
    (r : user) :
  r ∈ users ->
  data !! "username" = Some (Row.username r) ->
  passes_validation data = true ->
  register_user data now users
  = (jsonify [("message", "Email or username already registered.")] 409,
     users).
Proof.
  intros Hr Hu Hv.
  destruct (passes_validation_fields _ Hv) as (u & e & p & Hu' & He & Hp).
  rewrite (register_user_valid _ _ _ _ _ _ Hu' He Hp Hv).
  assert (u = Row.username r) as -> by congruence.
  destruct (select_some_intro users e (Row.username r) r Hr) as [r' ->];
    [now right | reflexivity].
Qed.

Lemma duplicate_username_is_rejected_witness :
  register_user
    {["username" := "alice"; "email" := "other@example.org";
      "password" := "another1"]} "August 2025" alice_table
  = (jsonify [("message", "Email or username already registered.")] 409,
     alice_table).
Proof.
  apply (duplicate_username_is_rejected _ "August 2025" alice_table alice_row).
  - apply list_elem_of_here.
  - vm_compute. reflexivity.
  - vm_compute. reflexivity.
Defined.

(** X10.  Registering the same form twice: when the first registration is
    answered 201, a second one with the same body, at any later clock
    reading, is answered 409 and leaves the table of the first as it is. *)
Theorem registering_twice
    (data : gmap string string) (now now' : string) (users : list user) :
  status_code (fst (register_user data now users)) = 201 ->
  register_user data now' (snd (register_user data now users))
  = (jsonify [("message", "Email or username already registered.")] 409,
     snd (register_user data now users)).
Proof.
  intros H. pose proof (register_user_cases data now users) as C.
  cbv zeta in C.
  destruct C as [(E & _) | [(E & _) | (_ & Hv & C)]]; [congruence .. |].
  destruct C as (u & e & p & Hu & He & Hp & _ & ->).
  rewrite (register_user_valid _ _ _ _ _ _ Hu He Hp Hv).
  destruct (select_some_intro
              (users ++ [Row.mk (next_id users) u e p now]) e u
              (Row.mk (next_id users) u e p now)) as [r' ->];
    [apply elem_of_app; right; apply list_elem_of_here | now left
    | reflexivity].
Qed.

Lemma registering_twice_witness :
  register_user alice_form "August 2025"
    (snd (register_user alice_form "July 2025" []))
  = (jsonify [("message", "Email or username already registered.")] 409,
     snd (register_user alice_form "July 2025" [])).
Proof.
  apply (registering_twice alice_form "July 2025" "August 2025" []).
  vm_compute. reflexivity.
Defined.

(** * Logging in *)

Lemma login_user_with_credentials data users s email password :
  data !! "email" = Some email -> data !! "password" = Some password ->
  has_credentials data = true ->
  login_user data users s
  = match select_by_email users email with
    | Some user =>
        if String.eqb (Row.password user) password
        then (jsonify [("message", "Login successful!")] 200, session_of user)
        else (jsonify [("message", "Invalid email or password.")] 401, s)
    | None => (jsonify [("message", "Invalid email or password.")] 401, s)
    end.
Proof.
  intros He Hp Hc. unfold has_credentials in Hc. apply negb_true_iff in Hc.
  unfold login_user. now rewrite Hc, He, Hp.
Qed.

Lemma login_user_success data users s :
  status_code (fst (login_user data users s)) = 200 ->
  exists r, select_by_email users (default "" (data !! "email")) = Some r
            /\ data !! "email" = Some (Row.email r)
            /\ data !! "password" = Some (Row.password r)
            /\ login_user data users s
               = (jsonify [("message", "Login successful!")] 200, session_of r).
Proof.
  unfold login_user.
  destruct (_ || _) eqn:G; [discriminate |].
  apply orb_false_iff in G as [Ge Gp].
  destruct (data !! "email") as [e |]; [| discriminate].
  destruct (data !! "password") as [p |]; [| discriminate].
  cbn [default from_option id].
  destruct (select_by_email users e) as [r |] eqn:S; [| discriminate].
  destruct (String.eqb_spec (Row.password r) p) as [<- | _]; [| discriminate].
  intros _. exists r. apply select_by_email_in in S as [_ <-]. auto.
Qed.

(** X11.  With one row per address, a login that carries the address and
    the password of a row (both non-empty) is answered 200 and binds the
    session to that row: its id, address and username, replacing whatever
    the session held. *)
Theorem login_with_row_credentials
    (data : gmap string string) (users : list user) (s : session) (r : user) :
  NoDup (map Row.email users) ->
  r ∈ users ->
  data !! "email" = Some (Row.email r) ->
  data !! "password" = Some (Row.password r) ->
  has_credentials data = true ->
  login_user data users s
  = (jsonify [("message", "Login successful!")] 200,
     Session.mk (Some (Row.id r)) (Some (Row.email r))
       (Some (Row.username r))).
Proof.
  intros Hnd Hr He Hp Hc.
  rewrite (login_user_with_credentials _ _ _ _ _ He Hp Hc).
  rewrite (select_by_email_unique _ _ Hnd Hr). now rewrite String.eqb_refl.
Qed.

Lemma login_with_row_credentials_witness :
  login_user alice_login alice_table Session.empty
  = (jsonify [("message", "Login successful!")] 200,
     Session.mk (Some 1) (Some "alice@example.org") (Some "alice")).
Proof.
  apply (login_with_row_credentials alice_login alice_table Session.empty
           alice_row).
  - apply NoDup_singleton.
  - apply list_elem_of_here.
  - vm_compute. reflexivity.
  - vm_compute. reflexivity.
  - vm_compute. reflexivity.
Defined.

(** X12.  A login is answered 200 only with the address and the password
    of a row of the table; the session it leaves is that row's.  Every other
    login leaves the session as it was. *)
Theorem login_needs_row_credentials
    (data : gmap string string) (users : list user) (s : session) :
  (status_code (fst (login_user data users s)) = 200 ->
   exists r, r ∈ users
             /\ data !! "email" = Some (Row.email r)
             /\ data !! "password" = Some (Row.password r)
             /\ snd (login_user data users s)
                = Session.mk (Some (Row.id r)) (Some (Row.email r))
                    (Some (Row.username r)))
  /\ (status_code (fst (login_user data users s)) <> 200 ->
      snd (login_user data users s) = s).
Proof.
  split.
  - intros H. destruct (login_user_success _ _ _ H) as (r & S & He & Hp & E).
    exists r. rewrite He in S. cbn [default from_option id] in S.
    apply select_by_email_in in S as [Hin _]. now rewrite E.
  - unfold login_user. destruct (_ || _); [reflexivity |].
    destruct (select_by_email users _) as [r |]; [| reflexivity].
    destruct (String.eqb _ _); [now intros [] | reflexivity].
Qed.

(** X13.  Register, then log in: after a registration answered 201, a login
    with the address and the password of the form is answered 200 and binds
    the session to the new row, whose id is the next id of the old table. *)
Theorem register_then_login
    (data credentials : gmap string string) (now : string)
    (users : list user) (s : session) (username email password : string) :
  data !! "username" = Some username -> data !! "email" = Some email ->
  data !! "password" = Some password ->
  credentials !! "email" = Some email ->
  credentials !! "password" = Some password ->
  status_code (fst (register_user data now users)) = 201 ->
  login_user credentials (snd (register_user data now users)) s
  = (jsonify [("message", "Login successful!")] 200,
     Session.mk (Some (next_id users)) (Some email) (Some username)).
Proof.
  intros Hu He Hp Ce Cp H.
  pose proof (register_user_cases data now users) as C. cbv zeta in C.
  destruct C as [(E & _) | [(E & _) | (_ & Hv & C)]]; [congruence .. |].
  destruct C as (u & e & p & Hu' & He' & Hp' & S & ->).
  assert (u = username) as -> by congruence.
  assert (e = email) as -> by congruence.
  assert (p = password) as -> by congruence.
  assert (Hc : has_credentials credentials = true).
  { unfold passes_validation in Hv. unfold has_credentials.
    apply andb_true_iff in Hv as [G _]. rewrite He, Hp in G.
    rewrite Ce, Cp. apply negb_true_iff. apply negb_true_iff in G.
    now apply orb_false_iff in G as [G _]. }
  rewrite (login_user_with_credentials _ _ _ _ _ Ce Cp Hc).
  change email with (Row.email (Row.mk (next_id users) username email
                                  password now)) at 1.
  rewrite select_by_email_new.
  - cbn [Row.password]. now rewrite String.eqb_refl.
  - intros r' Hr'. cbn [Row.email]. now destruct (select_none _ _ _ S r' Hr').
Qed.

Lemma register_then_login_witness :
  login_user bob_login (snd (register_user bob_form "August 2025" alice_table))
    Session.empty
  = (jsonify [("message", "Login successful!")] 200,
     Session.mk (Some (next_id alice_table)) (Some "bob@example.org")
       (Some "bob")).
Proof.
  apply (register_then_login bob_form bob_login "August 2025" alice_table
           Session.empty "bob" "bob@example.org" "hunter22");
    vm_compute; reflexivity.
Defined.

(** X14.  Log in, then fetch the profile: with one row per id, the session
    left by a login answered 200 makes [get_user_profile] answer 200 with the
    username, address and month of registration of the row that carries the
    address of the login, and the fixed account type. *)
Theorem login_then_profile
    (data : gmap string string) (users : list user) (s : session) :
  NoDup (map Row.id users) ->
  status_code (fst (login_user data users s)) = 200 ->
  exists r, r ∈ users
            /\ data !! "email" = Some (Row.email r)
            /\ get_user_profile users (snd (login_user data users s))
               = jsonify [("username", Row.username r);
                          ("email", Row.email r);
                          ("member_since", Row.member_since r);
                          ("account_type", "Standard User")] 200.
Proof.
  intros Hnd H. destruct (login_user_success _ _ _ H) as (r & S & He & _ & E).
  exists r. rewrite He in S. cbn [default from_option id] in S.
  apply select_by_email_in in S as [Hin _].
  split; [exact Hin |]. split; [exact He |].
  rewrite E. cbn [snd]. unfold get_user_profile, session_of.
  cbn [Session.user_id]. now rewrite (select_by_id_unique _ _ Hnd Hin).
Qed.

Lemma login_then_profile_witness :
  exists r, r ∈ alice_table
            /\ alice_login !! "email" = Some (Row.email r)
            /\ get_user_profile alice_table
                 (snd (login_user alice_login alice_table Session.empty))
               = jsonify [("username", Row.username r);
                          ("email", Row.email r);
                          ("member_since", Row.member_since r);
                          ("account_type", "Standard User")] 200.
Proof.
  apply (login_then_profile alice_login alice_table Session.empty).
  - apply NoDup_singleton.
  - vm_compute. reflexivity.
Defined.

(** X15.  A session whose user id has no row (the row vanished) gets 404
    from [get_user_profile], not 401 and not a profile. *)
Theorem profile_of_missing_row
    (users : list user) (user_id : Z) (user_email username : option string) :
  user_id ∉ map Row.id users ->
  get_user_profile users (Session.mk (Some user_id) user_email username)
  = jsonify [("message", "Profile data not found.")] 404.
Proof.
  intros H. unfold get_user_profile. cbn [Session.user_id].
  destruct (select_by_id users user_id) as [r |] eqn:S; [| reflexivity].
  apply find_some in S as [Hin E]. apply Z.eqb_eq in E.
  destruct H. rewrite <- E. apply list_elem_of_fmap. exists r.
  split; [reflexivity | now apply list_elem_of_In].
Qed.

Lemma profile_of_missing_row_witness :
  get_user_profile alice_table (Session.mk (Some 7) None None)
  = jsonify [("message", "Profile data not found.")] 404.
Proof.
  apply (profile_of_missing_row alice_table 7 None None).
  intros H%list_elem_of_singleton. discriminate H.
Defined.

(** * Routing and the auth gate *)

(** What URL matching can return: a rule of the URL map for this path and
    method, or the static folder. *)
Lemma match_request_inr req e :
  match_request req = inr e ->
  In (path req, method req, e) url_map \/ e = "static".
Proof.
  unfold match_request.
  destruct (find _ url_map) as [[[rule m] e'] |] eqn:F.
  - intros [= <-]. left. apply find_some in F as [Hin E].
    apply andb_true_iff in E as [->%String.eqb_eq ->%String.eqb_eq].
    exact Hin.
  - destruct (existsb _ url_map); [discriminate |].
    destruct (Py.startswith _ _); [| discriminate].
    destruct (String.eqb _ _); [| discriminate].
    intros [= <-]. now right.
Qed.

(** One case per rule of the URL map (and one for the static folder), with
    the path, the method and the endpoint replaced by the rule's. *)
Ltac by_route req :=
  let e := fresh "e" in
  let M := fresh "M" in
  destruct (match_request req) as [? | e] eqn:M;
  [| apply match_request_inr in M;
     destruct M as [M | ->];
     [unfold url_map in M; cbn [In] in M;
      repeat (destruct M as [[= <- <- <-] | M]); [.. | destruct M] |]].

Lemma endpoint_login_page req :
  endpoint req = Some "login_page" -> path req = "/login".
Proof.
  unfold endpoint. destruct req as [m p d]. cbn [path method] in *.
  by_route (mk_request m p d); cbn [path method] in *;
    try discriminate; reflexivity.
Qed.

Lemma check_auth_cases req s :
  (Py.elem (path req) public_paths = true \/ logged_in s = true)
  /\ check_auth (path req) (endpoint req) s = None
  \/ (Py.elem (path req) public_paths = false /\ logged_in s = false)
     /\ check_auth (path req) (endpoint req) s = Some (redirect "/login").
Proof.
  unfold check_auth. fold public_paths.
  destruct (Py.elem (path req) public_paths) eqn:P; [left; auto |].
  destruct (logged_in s); cbn [negb]; [left; auto |].
  destruct (bool_decide (endpoint req = Some "login_page")) eqn:B.
  - apply bool_decide_eq_true in B. apply endpoint_login_page in B.
    rewrite B in P. discriminate P.
  - right. auto.
Qed.

(** X16.  The test on [request.endpoint] inside [check_auth] never decides
    anything: the gate lets a request through exactly when its path is on the
    allow-list or the session holds a user id, and otherwise answers with the
    redirect to the login page. *)
Theorem check_auth_decides_on_path_and_session (req : request) (s : session) :
  (check_auth (path req) (endpoint req) s = None
   <-> Py.elem (path req) public_paths = true \/ logged_in s = true)
  /\ (check_auth (path req) (endpoint req) s = None
      \/ check_auth (path req) (endpoint req) s = Some (redirect "/login")).
Proof.
  destruct (check_auth_cases req s) as [[H ->] | [[Hp Hs] ->]].
  - split; [tauto | now left].
  - split; [| now right].
    split; [discriminate | intros [H | H]; congruence].
Qed.

(** X17.  Without a session, a request for any path off the allow-list, with
    any method and body, is answered with the redirect to the login page and
    changes nothing: no view runs, so the table, the session and the counter
    are as before. *)
Theorem gate_stops_anonymous_requests
    (req : request) (now : string) (w : world) :
  logged_in (sess w) = false ->
  Py.elem (path req) public_paths = false ->
  full_dispatch_request req now w = (redirect "/login", w).
Proof.
  intros Hs Hp. unfold full_dispatch_request.
  destruct (check_auth_cases req (sess w)) as [[[H | H] _] | [_ ->]];
    [congruence .. | reflexivity].
Qed.

Lemma gate_stops_anonymous_requests_witness :
  full_dispatch_request
    (mk_request "POST" "/chat" {["message" := "hello"]}) "July 2025"
    (mk_world alice_table Session.empty 1)
  = (redirect "/login", mk_world alice_table Session.empty 1).
Proof.
  apply (gate_stops_anonymous_requests
           (mk_request "POST" "/chat" {["message" := "hello"]}) "July 2025"
           (mk_world alice_table Session.empty 1)); vm_compute; reflexivity.
Defined.

(** * What a request can change *)

Lemma match_request_inl req status :
  match_request req = inl status -> status = 404 \/ status = 405.
Proof.
  unfold match_request.
  destruct (find _ url_map) as [[[rule m] e'] |]; [discriminate |].
  destruct (existsb _ url_map); [intros [= <-]; now right |].
  destruct (Py.startswith _ _); [| intros [= <-]; now left].
  destruct (String.eqb _ _); [discriminate | intros [= <-]; now right].
Qed.

(** The view a request reaches, by its path: what [dispatch_request] is on
    each rule of the URL map. *)
Lemma dispatch_request_cases req now w :
  (exists status, (status = 404 \/ status = 405)
                  /\ dispatch_request req now w = (abort status, w))
  \/ (path req = "/" /\ dispatch_request req now w = (home (sess w), w))
  \/ (path req = "/login"
      /\ dispatch_request req now w = (login_page (sess w), w))
  \/ (path req = "/register"
      /\ dispatch_request req now w = (register_page (sess w), w))
  \/ (path req = "/profile" /\ dispatch_request req now w = (profile_page, w))
  \/ (path req = "/chat_app"
      /\ dispatch_request req now w = (chat_app_page, w))
  \/ (path req = "/register_user" /\ method req = "POST"
      /\ dispatch_request req now w
         = (fst (register_user (json req) now (users w)),
            mk_world (snd (register_user (json req) now (users w))) (sess w)
              (consecutive_errors w)))
  \/ (path req = "/login_user" /\ method req = "POST"
      /\ dispatch_request req now w
         = (fst (login_user (json req) (users w) (sess w)),
            mk_world (users w) (snd (login_user (json req) (users w) (sess w)))
              (consecutive_errors w)))
  \/ (path req = "/logout_user"
      /\ dispatch_request req now w
         = (fst (logout_user (sess w)),
            mk_world (users w) (snd (logout_user (sess w)))
              (consecutive_errors w)))
  \/ (path req = "/get_user_profile"
      /\ dispatch_request req now w
         = (get_user_profile (users w) (sess w), w))
  \/ (path req = "/chat" /\ method req = "POST"
      /\ dispatch_request req now w
         = (fst (chat (json req) (consecutive_errors w)),
            mk_world (users w) (sess w)
              (snd (chat (json req) (consecutive_errors w)))))
  \/ dispatch_request req now w = (send_static (path req), w).
Proof.
  unfold dispatch_request. destruct req as [m p d]. cbn [path method json].
  by_route (mk_request m p d); cbn [path method] in *.
  - left. match goal with H : match_request _ = inl _ |- _ =>
            apply match_request_inl in H end. eauto.
  - right; left. auto.
  - do 2 right; left. auto.
  - do 3 right; left. auto.
  - do 4 right; left. auto.
  - do 5 right; left. auto.
  - do 6 right; left. cbn. now destruct (register_user d now (users w)).
  - do 7 right; left. cbn. now destruct (login_user d (users w) (sess w)).
  - do 8 right; left. auto.
  - do 9 right; left. auto.
  - do 10 right; left. cbn. now destruct (chat d (consecutive_errors w)).
  - do 11 right. reflexivity.
Qed.

Lemma full_dispatch_request_cases req now w :
  (Py.elem (path req) public_paths = false /\ logged_in (sess w) = false
   /\ full_dispatch_request req now w = (redirect "/login", w))
  \/ ((Py.elem (path req) public_paths = true \/ logged_in (sess w) = true)
      /\ full_dispatch_request req now w = dispatch_request req now w).
Proof.
  unfold full_dispatch_request.
  destruct (check_auth_cases req (sess w)) as [[H ->] | [[Hp Hs] ->]]; auto.
Qed.

(** X18.  Each part of the state has its own writers.  A request whose path
    is not [/chat] leaves the counter as it was; one whose path is not
    [/register_user] leaves the table as it was; one whose path is neither
    [/login_user] nor [/logout_user] leaves the session as it was. *)
Theorem state_is_changed_only_by_its_view
    (req : request) (now : string) (w : world) :
  let w' := snd (full_dispatch_request req now w) in
  (path req <> "/chat" -> consecutive_errors w' = consecutive_errors w)
  /\ (path req <> "/register_user" -> users w' = users w)
  /\ (path req <> "/login_user" -> path req <> "/logout_user" ->
      sess w' = sess w).
Proof.
  cbv zeta.
  destruct (full_dispatch_request_cases req now w) as [(_ & _ & ->) | [_ ->]];
    [now repeat split |].
  pose proof (dispatch_request_cases req now w) as C.
  repeat (destruct C as [C | C]);
    [destruct C as (? & ? & ->) | destruct C as (? & C) .. | rewrite C ];
    try (destruct C as (? & C)); try rewrite C;
    cbn [snd users sess consecutive_errors]; repeat split; congruence.
Qed.

Lemma logged_in_user_id s :
  logged_in s = true -> exists user_id, Session.user_id s = Some user_id.
Proof. unfold logged_in. destruct (Session.user_id s); [eauto | discriminate]. Qed.

Lemma get_user_profile_logged_in users s :
  logged_in s = true ->
  status_code (get_user_profile users s) = 200
  \/ status_code (get_user_profile users s) = 404.
Proof.
  intros [user_id E]%logged_in_user_id. unfold get_user_profile. rewrite E.
  destruct (select_by_id users user_id); [now left | now right].
Qed.

Lemma login_user_status data users s :
  status_code (fst (login_user data users s)) = 400
  \/ status_code (fst (login_user data users s)) = 200
  \/ status_code (fst (login_user data users s)) = 401.
Proof.
  unfold login_user. destruct (_ || _); [now left |].
  destruct (select_by_email users _); [| now right; right].
  destruct (String.eqb _ _); [right; now left | now right; right].
Qed.

(** X19.  The only 401 the application sends is the one of [login_user]:
    a response with status 401 is the answer to a POST to [/login_user].  In
    particular the 401 of [get_user_profile] is never sent. *)
Theorem only_login_answers_401 (req : request) (now : string) (w : world) :
  status_code (fst (full_dispatch_request req now w)) = 401 ->
  path req = "/login_user" /\ method req = "POST"
  /\ fst (full_dispatch_request req now w)
     = jsonify [("message", "Invalid email or password.")] 401.
Proof.
  destruct (full_dispatch_request_cases req now w)
    as [(_ & _ & ->) | [Hgate ->]]; [discriminate |].
  pose proof (dispatch_request_cases req now w) as C.
  repeat (destruct C as [C | C]).
  - destruct C as (status & [-> | ->] & ->); discriminate.
  - destruct C as (_ & ->). unfold home.
    destruct (logged_in _); discriminate.
  - destruct C as (_ & ->). unfold login_page.
    destruct (logged_in _); discriminate.
  - destruct C as (_ & ->). unfold register_page.
    destruct (logged_in _); discriminate.
  - destruct C as (_ & ->). discriminate.
  - destruct C as (_ & ->). discriminate.
  - destruct C as (_ & _ & ->). cbn [fst].
    pose proof (register_user_cases (json req) now (users w)) as R.
    cbv zeta in R. destruct R as [(E & _) | [(E & _) | (E & _)]];
      rewrite E; discriminate.
  - destruct C as (Hp & Hm & ->). cbn [fst]. intros H.
    split; [exact Hp |]. split; [exact Hm |].
    revert H. unfold login_user. destruct (_ || _); [discriminate |].
    destruct (select_by_email _ _); [| reflexivity].
    destruct (String.eqb _ _); [discriminate | reflexivity].
  - destruct C as (_ & ->). discriminate.
  - destruct C as (Hp & ->). cbn [fst].
    destruct Hgate as [Hpub | Hs]; [rewrite Hp in Hpub; discriminate Hpub |].
    destruct (get_user_profile_logged_in (users w) _ Hs) as [-> | ->];
      discriminate.
  - destruct C as (_ & _ & ->). rewrite chat_unfold. discriminate.
  - rewrite C. discriminate.
Qed.

Lemma only_login_answers_401_witness :
  path (mk_request "POST" "/login_user" wrong_password_form) = "/login_user"
  /\ method (mk_request "POST" "/login_user" wrong_password_form) = "POST"
  /\ fst (full_dispatch_request
            (mk_request "POST" "/login_user" wrong_password_form) "July 2025"
            (mk_world alice_table Session.empty 0))
     = jsonify [("message", "Invalid email or password.")] 401.
Proof.
  apply (only_login_answers_401
           (mk_request "POST" "/login_user" wrong_password_form) "July 2025"
           (mk_world alice_table Session.empty 0)).
  vm_compute. reflexivity.
Defined.

Lemma full_dispatch_request_users req now w :
  users (snd (full_dispatch_request req now w)) = users w
  \/ users (snd (full_dispatch_request req now w))
     = snd (register_user (json req) now (users w)).
Proof.
  destruct (full_dispatch_request_cases req now w) as [(_ & _ & ->) | [_ ->]];
    [now left |].
  pose proof (dispatch_request_cases req now w) as C.
  repeat (destruct C as [C | C]);
    [destruct C as (? & ? & ->) | destruct C as (? & C) .. | rewrite C ];
    try (destruct C as (? & C)); try rewrite C;
    cbn [snd users]; auto.
Qed.

Lemma register_user_extends data now users :
  exists new, snd (register_user data now users) = (users ++ new)%list.
Proof.
  pose proof (register_user_cases data now users) as C. cbv zeta in C.
  destruct C as [(_ & _ & ->) | [(_ & _ & ->) | (_ & _ & C)]];
    [exists []; now rewrite app_nil_r .. |].
  destruct C as (u & e & p & _ & _ & _ & _ & ->). eauto.
Qed.

(** X20.  The schema is an invariant of the application: from a table that
    satisfies it ([id], [username] and [email] each without duplicates), the
    table after any sequence of requests satisfies it. *)
Theorem serve_keeps_schema (reqs : list (request * string)) (w : world) :
  schema_ok (users w) -> schema_ok (users (serve reqs w)).
Proof.
  revert w. induction reqs as [| [req now] reqs IH]; intros w H; [exact H |].
  cbn [serve fold_left]. apply IH.
  destruct (full_dispatch_request_users req now w) as [-> | ->];
    [exact H | now apply register_user_schema].
Qed.

Lemma serve_keeps_schema_witness :
  schema_ok
    (users (serve [(mk_request "POST" "/register_user" alice_form, "July 2025");
                   (mk_request "POST" "/register_user" alice_form, "July 2025");
                   (mk_request "POST" "/register_user" bob_form, "August 2025")]
              (initial []))).
Proof.
  apply (serve_keeps_schema
           [(mk_request "POST" "/register_user" alice_form, "July 2025");
            (mk_request "POST" "/register_user" alice_form, "July 2025");
            (mk_request "POST" "/register_user" bob_form, "August 2025")]
           (initial [])).
  repeat split; constructor.
Defined.

(** X21.  Rows are never changed or removed: after any sequence of requests
    the table is the table before, followed by the rows registered since. *)
Theorem serve_only_appends (reqs : list (request * string)) (w : world) :
  exists new, users (serve reqs w) = (users w ++ new)%list.
Proof.
  revert w. induction reqs as [| [req now] reqs IH]; intros w.
  - exists []. cbn. now rewrite app_nil_r.
  - cbn [serve fold_left].
    destruct (IH (snd (full_dispatch_request req now w))) as [new E].
    unfold serve in E. rewrite E.
    destruct (full_dispatch_request_users req now w) as [-> | ->];
      [now exists new |].
    destruct (register_user_extends (json req) now (users w)) as [new' ->].
    exists (new' ++ new)%list. now rewrite app_assoc.
Qed.

(** X22.  The streak outlives sessions: a sequence of requests none of
    which is for [/chat] (logins, logouts, registrations, pages) leaves the
    counter as it was. *)
Theorem counter_survives_other_requests
    (reqs : list (request * string)) (w : world) :
  Forall (fun '(req, _) => path req <> "/chat") reqs ->
  consecutive_errors (serve reqs w) = consecutive_errors w.
Proof.
  revert w. induction reqs as [| [req now] reqs IH]; intros w H;
    [reflexivity |].
  apply Forall_cons in H as [Hreq H]. cbn [serve fold_left].
  unfold serve in IH. rewrite (IH _ H).
  destruct (full_dispatch_request_cases req now w) as [(_ & _ & ->) | [_ ->]];
    [reflexivity |].
  pose proof (dispatch_request_cases req now w) as C.
  repeat (destruct C as [C | C]);
    [destruct C as (? & ? & ->) | destruct C as (? & C) .. | rewrite C ];
    try (destruct C as (? & C)); try rewrite C;
    cbn [snd consecutive_errors]; congruence.
Qed.

Lemma counter_survives_other_requests_witness :
  consecutive_errors
    (serve [(mk_request "POST" "/logout_user" ∅, "July 2025");
            (mk_request "POST" "/login_user" alice_login, "July 2025")]
       (mk_world alice_table (Session.mk (Some 1) None None) 1))
  = consecutive_errors
      (mk_world alice_table (Session.mk (Some 1) None None) 1).
Proof.
  apply (counter_survives_other_requests
           [(mk_request "POST" "/logout_user" ∅, "July 2025");
            (mk_request "POST" "/login_user" alice_login, "July 2025")]
           (mk_world alice_table (Session.mk (Some 1) None None) 1)).
  repeat constructor; discriminate.
Defined.

(** X23.  With a session, the page routes: [/], [/login] and [/register]
    redirect to the chat page, [/profile] and [/chat_app] render their
    templates; none of them changes the state. *)
Theorem pages_with_a_session
    (data : gmap string string) (now : string) (w : world) :
  logged_in (sess w) = true ->
  let get p := full_dispatch_request (mk_request "GET" p data) now w in
  get "/" = (redirect "/chat_app", w)
  /\ get "/login" = (redirect "/chat_app", w)
  /\ get "/register" = (redirect "/chat_app", w)
  /\ get "/profile" = (render_template "profile.html", w)
  /\ get "/chat_app" = (render_template "chat_app.html", w).
Proof.
  intros H. cbv zeta. unfold full_dispatch_request, check_auth.
  cbn [path Py.elem existsb String.eqb Ascii.eqb Bool.eqb orb].
  rewrite H. cbn [negb].
  repeat split; vm_compute; vm_compute in H; now rewrite H.
Qed.

Lemma pages_with_a_session_witness :
  let w := mk_world alice_table (Session.mk (Some 1) None None) 0 in
  let get p := full_dispatch_request (mk_request "GET" p ∅) "July 2025" w in
  get "/" = (redirect "/chat_app", w)
  /\ get "/login" = (redirect "/chat_app", w)
  /\ get "/register" = (redirect "/chat_app", w)
  /\ get "/profile" = (render_template "profile.html", w)
  /\ get "/chat_app" = (render_template "chat_app.html", w).
Proof.
  apply (pages_with_a_session ∅ "July 2025"
           (mk_world alice_table (Session.mk (Some 1) None None) 0)).
  reflexivity.
Defined.

(** X24.  Logging out ends the session for every later request: with a
    session, a POST to [/logout_user] is answered 200, clears the three
    session keys and touches neither the table nor the counter; after it,
    any request for a path off the allow-list is redirected to the login
    page and changes nothing. *)
Theorem logout_ends_the_session
    (data : gmap string string) (now : string) (w : world) :
  logged_in (sess w) = true ->
  let w' := mk_world (users w) (Session.mk None None None)
              (consecutive_errors w) in
  full_dispatch_request (mk_request "POST" "/logout_user" data) now w
  = (jsonify [("message", "Logged out successfully.")] 200, w')
  /\ forall (req : request) (now' : string),
       Py.elem (path req) public_paths = false ->
       full_dispatch_request req now' w' = (redirect "/login", w').
Proof.
  intros H. cbv zeta. split.
  - unfold full_dispatch_request, check_auth.
    cbn [path Py.elem existsb String.eqb Ascii.eqb Bool.eqb orb].
    rewrite H. reflexivity.
  - intros req now' Hp.
    destruct (full_dispatch_request_cases req now'
                (mk_world (users w) (Session.mk None None None)
                   (consecutive_errors w)))
      as [(_ & _ & ->) | [[Hpub | Hs] _]];
      [reflexivity | congruence | discriminate Hs].
Qed.

Lemma logout_ends_the_session_witness :
  let w := mk_world alice_table (Session.mk (Some 1) None None) 1 in
  let w' := mk_world (users w) (Session.mk None None None)
              (consecutive_errors w) in
  full_dispatch_request (mk_request "POST" "/logout_user" ∅) "July 2025" w
  = (jsonify [("message", "Logged out successfully.")] 200, w')
  /\ forall (req : request) (now' : string),
       Py.elem (path req) public_paths = false ->
       full_dispatch_request req now' w' = (redirect "/login", w').
Proof.
  apply (logout_ends_the_session ∅ "July 2025"
           (mk_world alice_table (Session.mk (Some 1) None None) 1)).
  reflexivity.
Defined.

(** Without faults the view is [login_user]. *)
Lemma login_user_without_faults data users s :
  login_user_with no_faults data users s = returns (login_user data users s).
Proof.
  unfold login_user_with, login_user, no_faults.
  cbn [connect_error select_error].
  destruct (_ || _); [reflexivity |].
  destruct (select_by_email _ _); [| reflexivity].
  now destruct (String.eqb _ _).
Qed.

(** X25.  When SQLite may fail, a login that returns anything but 200
    leaves the session as it was and gets one of three fixed responses,
    chosen by the body and by whether the SELECT raised, never by what the
    table holds: 400 when the address or the password is missing or empty;
    otherwise 500 "Login failed. Please try again." when the SELECT raised
    (the text of the error is not sent) and 401 with the one message when it
    did not. *)
Theorem failed_login_response
    (db : faults) (data : gmap string string) (users : list user)
    (s s' : session) (rv : response) :
  login_user_with db data users s = returns (rv, s') ->
  status_code rv <> 200 ->
  s' = s
  /\ rv = if has_credentials data
          then match select_error db with
               | Some _ =>
                   jsonify [("message", "Login failed. Please try again.")] 500
               | None => jsonify [("message", "Invalid email or password.")] 401
               end
          else jsonify [("message", "Email and password are required.")] 400.
Proof.
  unfold login_user_with, has_credentials.
  destruct (_ || _); cbn [negb]; [now intros [= <- <-] |].
  destruct (connect_error db); [discriminate |].
  destruct (select_error db); [now intros [= <- <-] |].
  destruct (select_by_email users _); [| now intros [= <- <-]].
  destruct (String.eqb _ _); intros [= <- <-]; [now intros [] | auto].
Qed.

Lemma failed_login_response_witness :
  Session.empty = Session.empty
  /\ jsonify [("message", "Login failed. Please try again.")] 500
     = if has_credentials alice_login
       then match select_error (mk_faults None (Some "database is locked") None)
            with
            | Some _ =>
                jsonify [("message", "Login failed. Please try again.")] 500
            | None => jsonify [("message", "Invalid email or password.")] 401
            end
       else jsonify [("message", "Email and password are required.")] 400.
Proof.
  apply (failed_login_response
           (mk_faults None (Some "database is locked") None) alice_login
           alice_table Session.empty Session.empty
           (jsonify [("message", "Login failed. Please try again.")] 500)).
  - vm_compute. reflexivity.
  - vm_compute. discriminate.
Defined.
